(** * Wildway: the authentication controller (server/controllers/authController.js)

    A shallow embedding of the Express handlers of [authController.js]:
    every handler is a computation over a request context that threads the
    credential store and the clock, may throw, and records the effects a
    client or a downstream middleware can observe (calls of [next], cookies,
    JSON responses, store writes, mails) in a trace. *)

From Stdlib Require Import ZArith Lia Ascii String DecimalString.
From stdpp Require Import gmap strings list fin_maps.

Open Scope Z_scope.
Open Scope string_scope.

(** ** JavaScript values the controller handles *)

(** Truthiness of a string-or-undefined value: [undefined] and the empty
    string are falsy. *)
Definition truthy (v : option string) : bool :=
  match v with
  | Some s => negb (String.eqb s "")
  | None => false
  end.

(** [String.prototype.split] with a one-character separator. *)
Fixpoint split_on (sep : ascii) (s : string) : list string :=
  match s with
  | EmptyString => [EmptyString]
  | String c s' =>
      if Ascii.eqb c sep then EmptyString :: split_on sep s'
      else match split_on sep s' with
           | [] => [String c EmptyString]
           | w :: ws => String c w :: ws
           end
  end.

(** [String.prototype.startsWith]. *)
Definition startsWith (p s : string) : bool := String.prefix p s.

(** JSON documents, as [res.json] serialises them. *)
#[warnings="-register-all"]
Inductive json :=
| JNull
| JNum (n : Z)
| JStr (s : string)
| JObj (fields : list (string * json)).

(** Property lookup in a serialised object. *)
Fixpoint assoc_get (k : string) (l : list (string * json)) : option json :=
  match l with
  | [] => None
  | (k', v) :: l' => if String.eqb k k' then Some v else assoc_get k l'
  end.

Definition json_get (k : string) (j : json) : option json :=
  match j with
  | JObj l => assoc_get k l
  | _ => None
  end.

(** [JSON.stringify] leaves out a property whose value is [undefined]. *)
Definition opt_field {A} (k : string) (f : A -> json) (v : option A)
  : list (string * json) :=
  match v with
  | Some a => [(k, f a)]
  | None => []
  end.

(** ** The User document *)

Record User := mkUser {
  _id : nat;
  name : string;
  email : string;
  password : option string;
  confirmPassword : option string;
  role : string;
  passwordChangedAt : option Z;
  passwordResetToken : option string;
  passwordResetExpires : option Z
}.

Definition set_password (v : option string) (u : User) : User :=
  mkUser (_id u) (name u) (email u) v (confirmPassword u) (role u)
         (passwordChangedAt u) (passwordResetToken u) (passwordResetExpires u).

Definition set_confirmPassword (v : option string) (u : User) : User :=
  mkUser (_id u) (name u) (email u) (password u) v (role u)
         (passwordChangedAt u) (passwordResetToken u) (passwordResetExpires u).

Definition set_passwordChangedAt (v : option Z) (u : User) : User :=
  mkUser (_id u) (name u) (email u) (password u) (confirmPassword u) (role u)
         v (passwordResetToken u) (passwordResetExpires u).

Definition set_passwordResetToken (v : option string) (u : User) : User :=
  mkUser (_id u) (name u) (email u) (password u) (confirmPassword u) (role u)
         (passwordChangedAt u) v (passwordResetExpires u).

Definition set_passwordResetExpires (v : option Z) (u : User) : User :=
  mkUser (_id u) (name u) (email u) (password u) (confirmPassword u) (role u)
         (passwordChangedAt u) (passwordResetToken u) v.

(** The document as [res.json] sends it: defined fields only. *)
Definition user_to_json (u : User) : json :=
  JObj ([("_id", JNum (Z.of_nat (_id u)));
         ("name", JStr (name u));
         ("email", JStr (email u));
         ("role", JStr (role u))]
        ++ opt_field "password" JStr (password u)
        ++ opt_field "confirmPassword" JStr (confirmPassword u)
        ++ opt_field "passwordChangedAt" JNum (passwordChangedAt u)
        ++ opt_field "passwordResetToken" JStr (passwordResetToken u)
        ++ opt_field "passwordResetExpires" JNum (passwordResetExpires u)).

(** ** Errors *)

(** utils/appError is not among the sources; the controller constructs the
    error from a message and a status code. *)
Record AppError := mkAppError { message : string; statusCode : Z }.

(** The errors of the jsonwebtoken library. *)
Inductive JwtError :=
| JsonWebTokenError (msg : string)
| TokenExpiredError (msg : string) (expiredAt : Z)
| NotBeforeError (msg : string).

(** Whatever a handler can throw or hand to [next]. *)
Inductive Thrown :=
| ThrownApp (e : AppError)
| ThrownJwt (e : JwtError)
| ThrownValidation (msg : string)
| ThrownDuplicateKey (key : string)
| ThrownType (msg : string).

(** ** Requests, cookies, mails and observable events *)

Record Req := mkReq {
  headers_authorization : option string;
  cookies_jwt : option string;
  body : gmap string string;
  params_token : string;
  protocol : string;
  host : string;
  user : option User
}.

Definition set_user (v : option User) (r : Req) : Req :=
  mkReq (headers_authorization r) (cookies_jwt r) (body r) (params_token r)
        (protocol r) (host r) v.

Record Cookie := mkCookie {
  cookie_name : string;
  cookie_value : string;
  expires : Z;
  httpOnly : bool;
  secure : bool;
  sameSite : string
}.

Record Email := mkEmail {
  mail_to : string;
  mail_subject : string;
  mail_message : string
}.

Record TokenPayload := mkPayload { payload_id : nat; iat : Z }.

Inductive Event :=
| EvNext (err : option Thrown)
| EvCookie (c : Cookie)
| EvJson (status : Z) (payload : json)
| EvCreate (doc : gmap string string)
| EvSave (validateBeforeSave : bool) (doc : User)
| EvMail (m : Email) (delivered : bool).

Record Ctx := mkCtx {
  req : Req;
  db : list User;
  clock : Z;
  entropy : nat;
  trace : list Event
}.

(** ** External collaborators

    The libraries and services the controller calls but does not implement:
    the process environment, jsonwebtoken, bcrypt, crypto and the mail
    transport behind utils/email. *)
Class Externals := {
  JWT_SECRET : string;
  JWT_EXPIRES_IN : string;
  JWT_COOKIE_EXPIRES_IN : Z;
  (** [jwt.sign({ id }, secret, { expiresIn })] at a given time. *)
  jwt_sign : nat -> string -> string -> Z -> string;
  (** [jwt.verify(token, secret)] at a given time: the decoded payload, or
      the error the library throws. *)
  jwt_verify : string -> string -> Z -> JwtError + TokenPayload;
  bcrypt_hash : string -> string;
  bcrypt_compare : string -> string -> bool;
  (** [crypto.createHash("sha256").update(s).digest("hex")]. *)
  sha256_hex : string -> string;
  (** [crypto.randomBytes(32).toString("hex")], drawn from an entropy cursor. *)
  randomBytes_hex : nat -> string;
  (** Whether the transport delivers a mail ([sendEmail] rejects otherwise). *)
  sendEmail : Email -> bool
}.

(** ** Handler computations: state, exceptions, trace *)

Inductive Result (A : Type) :=
| Returned (a : A)
| Threw (e : Thrown).
Arguments Returned {A} a.
Arguments Threw {A} e.

Definition M (A : Type) : Type := Ctx -> Result A * Ctx.

#[export] Instance M_ret : MRet M := fun A a c => (Returned a, c).

#[export] Instance M_bind : MBind M := fun A B f m c =>
  match m c with
  | (Returned a, c') => f a c'
  | (Threw e, c') => (Threw e, c')
  end.

Definition throw {A} (e : Thrown) : M A := fun c => (Threw e, c).

Definition emit (e : Event) : M unit := fun c =>
  (Returned tt, mkCtx (req c) (db c) (clock c) (entropy c) (trace c ++ [e])).

Definition get_req : M Req := fun c => (Returned (req c), c).

Definition get_db : M (list User) := fun c => (Returned (db c), c).

Definition put_db (l : list User) : M unit := fun c =>
  (Returned tt, mkCtx (req c) l (clock c) (entropy c) (trace c)).

Definition put_req_user (u : User) : M unit := fun c =>
  (Returned tt,
   mkCtx (set_user (Some u) (req c)) (db c) (clock c) (entropy c) (trace c)).

Definition Date_now : M Z := fun c => (Returned (clock c), c).

Definition draw_entropy : M nat := fun c =>
  (Returned (entropy c),
   mkCtx (req c) (db c) (clock c) (S (entropy c)) (trace c)).

(** [next()] and [next(err)]. *)
Definition next (err : option Thrown) : M unit := emit (EvNext err).

Definition next_error (msg : string) (code : Z) : M unit :=
  next (Some (ThrownApp (mkAppError msg code))).

(** [res.cookie(name, value, options)]. *)
Definition res_cookie (c : Cookie) : M unit := emit (EvCookie c).

(** [res.status(code).json(payload)]. *)
Definition res_status_json (code : Z) (payload : json) : M unit :=
  emit (EvJson code payload).

(** Modelled from the spec: utils/catchAsync is not among the sources. A
    failure inside an asynchronous handler is a recoverable failure handed
    to the error path ([next(err)]), not a crash. *)
Definition catchAsync (fn : M unit) : M unit := fun c =>
  match fn c with
  | (Returned a, c') => (Returned a, c')
  | (Threw e, c') => next (Some e) c'
  end.

(** Running a handler on a fresh response: empty trace. *)
Definition handle (h : M unit) (r : Req) (users : list User) (now : Z)
  (seed : nat) : Ctx :=
  snd (h (mkCtx r users now seed [])).

(** The arguments of the calls of [next], in order. *)
Definition next_calls (c : Ctx) : list (option Thrown) :=
  omap (fun e => match e with EvNext a => Some a | _ => None end) (trace c).

(** Express runs the following middleware when the previous one called
    [next()] without an error. *)
Definition and_then (h1 h2 : M unit) : M unit := fun c =>
  match h1 c with
  | (Returned _, c1) =>
      match last (next_calls c1) with
      | Some None => h2 c1
      | _ => (Returned tt, c1)
      end
  | (Threw e, c1) => (Threw e, c1)
  end.

(** ** The credential store (models/userModel)

    The User model is not among the sources; its operations follow the
    specification's description of the Credential Store. *)

(** Modelled from the spec: the schema of models/userModel is missing;
    [role] defaults to [user]. *)
Definition default_role : string := "user".

(** Modelled from the spec: the permission tiers the schema of
    models/userModel allows for [role]. *)
Definition role_tiers : list string := ["user"; "guide"; "admin"].

Definition includes (l : list string) (s : string) : bool :=
  existsb (String.eqb s) l.

Definition lower_ascii (a : ascii) : ascii :=
  let n := nat_of_ascii a in
  if (Nat.leb 65 n && Nat.leb n 90)%bool then ascii_of_nat (n + 32) else a.

Fixpoint toLowerCase (s : string) : string :=
  match s with
  | EmptyString => EmptyString
  | String a s' => String (lower_ascii a) (toLowerCase s')
  end.

(** Modelled from the spec: the read projection of models/userModel is
    missing; the hashed secret is excluded from reads unless the query asks
    for it with [select("+password")]. *)
Definition select (with_password : bool) (u : User) : User :=
  if with_password then u else set_password None u.

(** Modelled from the spec: the lookups behind the queries of the missing
    models/userModel; the first record that matches, in store order. *)
Definition find_by_email (e : string) (l : list User) : option User :=
  List.find (fun u => String.eqb (email u) (toLowerCase e)) l.

Definition find_by_id (id : nat) (l : list User) : option User :=
  List.find (fun u => Nat.eqb (_id u) id) l.

(** The filter [{ passwordResetToken: h, passwordResetExpires: { $gt: now } }]. *)
Definition reset_filter (h : string) (now : Z) (u : User) : bool :=
  match passwordResetToken u, passwordResetExpires u with
  | Some t, Some e => (String.eqb t h && Z.ltb now e)%bool
  | _, _ => false
  end.

Definition find_by_reset (h : string) (now : Z) (l : list User) : option User :=
  List.find (reset_filter h now) l.

(** Modelled from the spec: find-by-email of the missing models/userModel,
    on the case-normalised email. *)
Definition User_findOne_email (e : option string) (with_password : bool)
  : M (option User) :=
  l ← get_db;
  mret (select with_password <$> (e ≫= fun e => find_by_email e l)).

(** Modelled from the spec: find-by-id of the missing models/userModel. *)
Definition User_findById (id : nat) (with_password : bool) : M (option User) :=
  l ← get_db;
  mret (select with_password <$> find_by_id id l).

(** Modelled from the spec: find-by-reset-token of the missing
    models/userModel. *)
Definition User_findOne_reset (h : string) (now : Z) : M (option User) :=
  l ← get_db;
  mret (select false <$> find_by_reset h now l).

(** Modelled from the spec: the validators of the missing models/userModel;
    a password is required and its confirmation must match. *)
Definition credentials_valid (p q : option string) : bool :=
  match p, q with
  | Some p, Some q => (negb (String.eqb p "") && String.eqb p q)%bool
  | _, _ => false
  end.

Definition fresh_id (l : list User) : nat :=
  S (foldr Nat.max 0%nat (map _id l)).

(** An object literal: properties whose value is [undefined] count as absent. *)
Fixpoint object_of (l : list (string * option string)) : gmap string string :=
  match l with
  | [] => ∅
  | (k, Some v) :: l' => <[k := v]> (object_of l')
  | (_, None) :: l' => object_of l'
  end.

Section WithExternals.
Context {ext : Externals}.

(** Modelled from the spec: what a save of the missing models/userModel
    writes over the stored record [x] of the same id; the document's
    fields, the secret hashed when the document carries one and kept when
    it was not loaded. The confirmation is never stored. *)
Definition stored_form (x doc : User) : User :=
  mkUser (_id doc) (name doc) (email doc)
         (match password doc with
          | Some p => Some (bcrypt_hash p)
          | None => password x
          end)
         None (role doc) (passwordChangedAt doc)
         (passwordResetToken doc) (passwordResetExpires doc).

Definition write_user (doc : User) (l : list User) : list User :=
  map (fun x => if Nat.eqb (_id x) (_id doc) then stored_form x doc else x) l.

(** Modelled from the spec: save-with-validation-toggle of the missing
    models/userModel. With validation the new password must be present and
    confirmed; the store hashes the password on save. The document in
    memory ends with the hashed secret and no confirmation. *)
Definition save (validateBeforeSave : bool) (doc : User) : M User :=
  emit (EvSave validateBeforeSave doc);;
  if (validateBeforeSave
      && negb (credentials_valid (password doc) (confirmPassword doc)))%bool
  then throw (ThrownValidation "User validation failed")
  else
    l ← get_db;
    put_db (write_user doc l);;
    mret (set_confirmPassword None
            (set_password (bcrypt_hash <$> password doc) doc)).

(** Modelled from the spec: create of the missing models/userModel. The
    four credentials are required, the confirmation must match, a supplied
    role must be one of the tiers, the email is unique and case-normalised,
    and the password is stored hashed. *)
Definition User_create (o : gmap string string) : M User :=
  emit (EvCreate o);;
  l ← get_db;
  if negb (truthy (o !! "name") && truthy (o !! "email")
           && credentials_valid (o !! "password") (o !! "confirmPassword")
           && from_option (includes role_tiers) true (o !! "role"))%bool
  then throw (ThrownValidation "User validation failed")
  else
    let mail := toLowerCase (default "" (o !! "email")) in
    if existsb (fun u => String.eqb (email u) mail) l
    then throw (ThrownDuplicateKey "email")
    else
      let doc := mkUser (fresh_id l) (default "" (o !! "name")) mail
                        (bcrypt_hash <$> (o !! "password")) None
                        (default default_role (o !! "role")) None None None in
      put_db (l ++ [doc]);;
      mret doc.

(** Modelled from the spec: the instance method [passwordResetToken()] of
    the missing models/userModel. It draws a random raw token, sets its
    hash and an expiry ten minutes ahead on the document, and returns the
    raw token. *)
Definition passwordResetToken_call (u : User) : M (string * User) :=
  seed ← draw_entropy;
  now ← Date_now;
  let raw := randomBytes_hex seed in
  mret (raw,
        set_passwordResetExpires (Some (now + 10 * 60 * 1000))
          (set_passwordResetToken (Some (sha256_hex raw)) u)).

(** Modelled from the spec: the instance method [correctPassword] of the
    missing models/userModel compares the submitted password with the
    stored hash; without a hash the comparison rejects. *)
Definition correctPassword (candidate userPassword : option string) : M bool :=
  match candidate, userPassword with
  | Some p, Some h => mret (bcrypt_compare p h)
  | _, _ => throw (ThrownType "data and hash arguments required")
  end.

(** Modelled from the spec: the instance method [changedPasswordAfter] of
    the missing models/userModel; true when [passwordChangedAt] exists and
    is later than the token's issued-at time. *)
Definition changedPasswordAfter (u : User) (JWTTimestamp : Z) : bool :=
  match passwordChangedAt u with
  | Some t => Z.ltb JWTTimestamp t
  | None => false
  end.

End WithExternals.

(** ** The controller (server/controllers/authController.js) *)

Section Controller.
Context {ext : Externals}.

Definition signToken (id : nat) : M string :=
  now ← Date_now;
  mret (jwt_sign id JWT_SECRET JWT_EXPIRES_IN now).

(** The cookie's [expires] is the time value of the Date the source builds
    from [Date.now() + days * 24 * 60 * 60 * 1000], with [days] the whole
    number the environment variable stands for; it is that of the source
    as long as the sum is computed exactly and the Date is valid
    ([cookie_expiry_valid] below). *)
Definition createSendToken (user : User) (statusCode : Z) : M unit :=
  token ← signToken (_id user);
  now ← Date_now;
  res_cookie (mkCookie "jwt" token
                (now + JWT_COOKIE_EXPIRES_IN * 24 * 60 * 60 * 1000)
                true false "Lax");;
  let user := set_password None user in
  res_status_json statusCode
    (JObj [("status", JStr "success");
           ("token", JStr token);
           ("data", JObj [("user", user_to_json user)])]).

(** The object literal [signup] hands to [User.create]. *)
Definition signup_input (b : gmap string string) : gmap string string :=
  object_of [("name", b !! "name");
             ("email", b !! "email");
             ("password", b !! "password");
             ("confirmPassword", b !! "confirmPassword")].

Definition signup : M unit := catchAsync (
  r ← get_req;
  newUser ← User_create (signup_input (body r));
  createSendToken newUser 201;;
  next None).

Definition login : M unit := catchAsync (
  r ← get_req;
  let email := body r !! "email" in
  let password_ := body r !! "password" in
  if (negb (truthy email) || negb (truthy password_))%bool
  then next_error "Please provide email and password!" 400
  else
    user ← User_findOne_email email true;
    match user with
    | None => next_error "Incorrect email or password!" 401
    | Some user =>
        ok ← correctPassword password_ (password user);
        if negb ok
        then next_error "Incorrect email or password!" 401
        else createSendToken user 200
    end).

Definition getCurrentUser : M unit :=
  r ← get_req;
  res_status_json 200
    (JObj [("status", JStr "success");
           ("data", JObj (opt_field "user" user_to_json (user r)))]).

Definition logout : M unit :=
  now ← Date_now;
  res_cookie (mkCookie "jwt" "loggedout" (now + 10 * 1000) true false "Lax");;
  res_status_json 200 (JObj [("status", JStr "success")]).

(** Lines 87-97 of [protect]: the bearer token of the Authorization header,
    else the [jwt] cookie (which the source also prints to the console). *)
Definition extract_token (r : Req) : option string :=
  if (truthy (headers_authorization r)
      && from_option (startsWith "Bearer") false (headers_authorization r))%bool
  then split_on " " (default "" (headers_authorization r)) !! 1%nat
  else if truthy (cookies_jwt r) then cookies_jwt r
  else None.

(** [await promisify(jwt.verify)(token, secret)]: the payload, or the
    library's error thrown. *)
Definition verify_token (token : string) : M TokenPayload :=
  now ← Date_now;
  match jwt_verify token JWT_SECRET now with
  | inr decoded => mret decoded
  | inl e => throw (ThrownJwt e)
  end.

Definition protect : M unit := catchAsync (
  r ← get_req;
  let token := extract_token r in
  if negb (truthy token)
  then next_error "You are not logged in! Please log in to your account." 401
  else
    decoded ← verify_token (default "" token);
    freshUser ← User_findById (payload_id decoded) false;
    match freshUser with
    | None =>
        next_error "The user belonging to this token no longer exists!" 401
    | Some freshUser =>
        if changedPasswordAfter freshUser (iat decoded)
        then next_error
               "User recently changed his password! Please log in again." 401
        else put_req_user freshUser;; next None
    end).

(** The error [restrictTo] constructs for a role outside the allowed set. *)
Definition restrictTo_error : AppError :=
  mkAppError "You do not have persmission to perform this action!" 403.

Definition restrictTo (roles : list string) : M unit :=
  r ← get_req;
  match user r with
  | None =>
      throw (ThrownType "Cannot read properties of undefined (reading 'role')")
  | Some u =>
      (if negb (includes roles (role u))
       then let _ := restrictTo_error in mret tt
       else mret tt);;
      next None
  end.

Definition newline : string := String (ascii_of_nat 10) EmptyString.

(** The mail [forgotPassword] composes around the raw reset token. *)
Definition reset_mail (r : Req) (to resetToken : string) : Email :=
  let resetURL := protocol r +:+ "://" +:+ host r
                  +:+ "/api/v1/users/resetPassword/" +:+ resetToken in
  let message :=
    "Forgot your password? Submit a PATCH request with your new password and passwordConfirm to: "
    +:+ resetURL +:+ "." +:+ newline
    +:+ " If you didn't forget your password, please ignore this email!" in
  mkEmail to "Your password reset token (valid for 10 minutes)" message.

(** [await sendEmail(options)]: false when the promise rejects. *)
Definition send (m : Email) : M bool :=
  emit (EvMail m (sendEmail m));;
  mret (sendEmail m).

Definition forgotPassword : M unit := catchAsync (
  r ← get_req;
  user ← User_findOne_email (body r !! "email") false;
  match user with
  | None => next_error "There is no user with this email address!" 404
  | Some user =>
      '(resetToken, user) ← passwordResetToken_call user;
      sent ← send (reset_mail r (email user) resetToken);
      if sent : bool
      then
        res_status_json 200
          (JObj [("status", JStr "success");
                 ("message", JStr "Token sent to email!")]);;
        next None
      else
        let user := set_passwordResetToken None user in
        let user := set_passwordResetExpires None user in
        save false user;;
        next_error "There was an error sending the email. Try again later!" 500
  end).

(** The assignments of [resetPassword] before [user.save()]. *)
Definition resetPassword_assign (b : gmap string string) (u : User) : User :=
  set_passwordResetExpires None
    (set_passwordResetToken None
       (set_confirmPassword (b !! "confirmPassword")
          (set_password (b !! "password") u))).

Definition resetPassword : M unit := catchAsync (
  r ← get_req;
  let hashedToken := sha256_hex (params_token r) in
  now ← Date_now;
  user ← User_findOne_reset hashedToken now;
  match user with
  | None => next_error "Token is invalid or has expired!" 400
  | Some user =>
      user ← save true (resetPassword_assign (body r) user);
      createSendToken user 201;;
      next None
  end).

(** The assignments of [updatePassword] before [user.save()]. *)
Definition updatePassword_assign (b : gmap string string) (now : Z) (u : User)
  : User :=
  set_passwordChangedAt (Some now)
    (set_confirmPassword (b !! "passwordConfirm")
       (set_password (b !! "password") u)).

Definition updatePassword : M unit := catchAsync (
  r ← get_req;
  match user r with
  | None =>
      throw (ThrownType "Cannot read properties of undefined (reading 'id')")
  | Some me =>
      user ← User_findById (_id me) true;
      match user with
      | None =>
          throw (ThrownType
                   "Cannot read properties of null (reading 'correctPassword')")
      | Some user =>
          ok ← correctPassword (body r !! "passwordCurrent") (password user);
          if negb ok
          then next_error "Your current password is wrong!" 401
          else
            now ← Date_now;
            user ← save true (updatePassword_assign (body r) now user);
            createSendToken user 201;;
            next None
      end
  end).

End Controller.

(** ** Serving requests and the client's cookie jar *)

(** Serves the requests in order with one handler; every request comes with
    the clock reading of its arrival and gets a fresh response, the store
    and the entropy cursor are threaded through. Returns what each request
    caused, and the final store. *)
Fixpoint serve_all (h : M unit) (rs : list (Req * Z)) (users : list User)
  (seed : nat) : list (list Event) * list User * nat :=
  match rs with
  | [] => ([], users, seed)
  | (r, now) :: rs' =>
      let c := handle h r users now seed in
      let '(out, users', seed') := serve_all h rs' (db c) (entropy c) in
      (trace c :: out, users', seed')
  end.

(** The cookies a client holds after it has received the given effects: a
    later cookie replaces an earlier one of the same name. *)
Fixpoint client_jar (evs : list Event) (jar : gmap string (string * Z))
  : gmap string (string * Z) :=
  match evs with
  | [] => jar
  | EvCookie c :: evs' =>
      client_jar evs' (<[cookie_name c := (cookie_value c, expires c)]> jar)
  | _ :: evs' => client_jar evs' jar
  end.

(** What one call of [logout] at time [now] does. *)
Definition logout_effects (now : Z) : list Event :=
  [EvCookie (mkCookie "jwt" "loggedout" (now + 10000) true false "Lax");
   EvJson 200 (JObj [("status", JStr "success")])].

(** ** What a response reveals *)

(** Whether some object inside a JSON document has the property [k]. *)
Fixpoint mentions (k : string) (j : json) : bool :=
  match j with
  | JObj l =>
      (fix mentions_in (l : list (string * json)) : bool :=
         match l with
         | [] => false
         | (k', v) :: l' =>
             (String.eqb k k' || mentions k v || mentions_in l')%bool
         end) l
  | _ => false
  end.

(** A response body is free of the [password] property, at any depth. *)
Definition hides_password (e : Event) : bool :=
  match e with
  | EvJson _ j => negb (mentions "password" j)
  | _ => true
  end.

(** No JSON body sent while handling the request carries the password. *)
Definition no_password_sent (c : Ctx) : bool :=
  forallb hides_password (trace c).

(** ** Reset tokens in the store *)

Definition holds_reset_token (h : string) (u : User) : bool :=
  match passwordResetToken u with
  | Some t => String.eqb t h
  | None => false
  end.

(** Only records with the given id hold the hashed reset token [h]: reset
    tokens are random, no two accounts share one. *)
Definition only_holder (h : string) (id : nat) (l : list User) : bool :=
  forallb (fun x => (negb (holds_reset_token h x) || Nat.eqb (_id x) id)%bool) l.

(** Both reset fields are unset. *)
Definition reset_cleared (u : User) : bool :=
  match passwordResetToken u, passwordResetExpires u with
  | None, None => true
  | _, _ => false
  end.

(** Every stored record with the given id has its reset fields unset. *)
Definition reset_cleared_in (id : nat) (l : list User) : bool :=
  forallb (fun x => (negb (Nat.eqb (_id x) id) || reset_cleared x)%bool) l.

Definition invalid_token_error : Thrown :=
  ThrownApp (mkAppError "Token is invalid or has expired!" 400).

Definition bad_credentials_error : Thrown :=
  ThrownApp (mkAppError "Incorrect email or password!" 401).

(** The request-body fields [signup] reads. *)
Definition signup_fields : list string :=
  ["name"; "email"; "password"; "confirmPassword"].

(** ** How a request ends *)

Definition is_response (e : Event) : bool :=
  match e with
  | EvJson _ _ => true
  | _ => false
  end.

Definition is_error (e : Event) : bool :=
  match e with
  | EvNext (Some _) => true
  | _ => false
  end.

(** At most one response is sent, [next] is called at most once, and a
    request that got a response does not also reach the error path. *)
Definition single_outcome (c : Ctx) : bool :=
  (Nat.leb (length (List.filter is_response (trace c))) 1
   && Nat.leb (length (next_calls c)) 1
   && negb (existsb is_response (trace c) && existsb is_error (trace c)))%bool.

(** Whether the character occurs in the string. *)
Fixpoint has_char (a : ascii) (s : string) : bool :=
  match s with
  | EmptyString => false
  | String c s' => (Ascii.eqb c a || has_char a s')%bool
  end.

(** Every record that holds the hashed reset token [h] has an expiry that is
    not after [now]. *)
Definition holders_expired (h : string) (now : Z) (l : list User) : bool :=
  forallb (fun x =>
             (negb (holds_reset_token h x)
              || match passwordResetExpires x with
                 | Some e => Z.leb e now
                 | None => true
                 end)%bool) l.

(** ** Dates

    [createSendToken] computes the cookie expiry in double arithmetic and
    wraps it in a Date. *)

(** The largest time value a Date can hold, in milliseconds. *)
Definition max_time_value : Z := 8640000000000000.

(** For a whole number of [days], the expiry [now + days * 24 * 60 * 60 *
    1000] is computed without rounding (the product stays within 2^53) and
    is the time value of a valid Date. *)
Definition cookie_expiry_valid (days now : Z) : bool :=
  (Z.leb (Z.abs (days * 86400000)) (2 ^ 53)
   && Z.leb (Z.abs now) max_time_value
   && Z.leb (Z.abs (now + days * 86400000)) max_time_value)%bool.

(** ** The tour controller (server/controllers/tourController.js)

    The Booking and Tour models are outside the sources; a booking and a
    tour keep the fields the handlers below read. *)

Module Tour.

(** [aliasTopTours]: the three query parameters it assigns, then [next()].
    Returns the query object and the argument of [next]. *)
Definition aliasTopTours (query : gmap string string)
  : gmap string string * option Thrown :=
  let query := <["limit" := "5"]> query in
  let query := <["sort" := "-ratingsAverage,price"]> query in
  let query :=
    <["fields" := "name,price,ratingsAverage,summary,difficulty"]> query in
  (query, None).

Record Booking := mkBooking { booking_user : nat; booking_tour : nat }.

Record TourDoc := mkTour { tour_id : nat; tour_name : string }.

(** The body [getMyTours] sends with status 200. *)
Record MyTours := mkMyTours { results : nat; tours : list TourDoc }.

(** [Booking.find({ user })]. *)
Definition Booking_find (uid : nat) (bookings : list Booking) : list Booking :=
  List.filter (fun b => Nat.eqb (booking_user b) uid) bookings.

(** [Tour.find({ _id: { $in: ids } })]: every stored tour whose id is among
    [ids], once, in store order. *)
Definition Tour_find_in (ids : list nat) (store : list TourDoc) : list TourDoc :=
  List.filter (fun t => existsb (Nat.eqb (tour_id t)) ids) store.

(** [getMyTours] for the user attached to the request; reading [req.user.id]
    fails when no user is attached. *)
Definition getMyTours (me : option User) (bookings : list Booking)
  (store : list TourDoc) : Thrown + MyTours :=
  match me with
  | None =>
      inl (ThrownType "Cannot read properties of undefined (reading 'id')")
  | Some me =>
      let bookings := Booking_find (_id me) bookings in
      let tourIDs := map booking_tour bookings in
      let tours := Tour_find_in tourIDs store in
      inr (mkMyTours (length bookings) tours)
  end.

End Tour.

(** ** A concrete environment and store, for running the handlers *)

Module Demo.

Fixpoint hex_of (n : nat) : string :=
  match n with
  | O => "c0ffee"
  | S n' => String "0" (hex_of n')
  end.

(** How long a demo token stays valid. *)
Definition lifetime : Z := 100000.

(** A toy token: the secret, the user id and the time of issue, separated
    by dots. *)
Definition sign (id : nat) (secret expiresIn : string) (now : Z) : string :=
  secret +:+ "." +:+ NilZero.string_of_uint (Nat.to_uint id)
  +:+ "." +:+ NilZero.string_of_int (Z.to_int now).

Definition verify (token secret : string) (now : Z) : JwtError + TokenPayload :=
  match split_on "." token with
  | [signature; id; issued] =>
      match NilZero.uint_of_string id, NilZero.int_of_string issued with
      | Some id, Some issued =>
          if negb (String.eqb signature secret)
          then inl (JsonWebTokenError "invalid signature")
          else if Z.ltb (Z.of_int issued + lifetime) now
          then inl (TokenExpiredError "jwt expired" (Z.of_int issued + lifetime))
          else inr (mkPayload (Nat.of_uint id) (Z.of_int issued))
      | _, _ => inl (JsonWebTokenError "invalid token")
      end
  | _ => inl (JsonWebTokenError "jwt malformed")
  end.

Definition externals : Externals := {|
  JWT_SECRET := "s3cret";
  JWT_EXPIRES_IN := "90d";
  JWT_COOKIE_EXPIRES_IN := 90;
  jwt_sign := sign;
  jwt_verify := verify;
  bcrypt_hash := fun p => "bcrypt$" +:+ p;
  bcrypt_compare := fun p h => String.eqb ("bcrypt$" +:+ p) h;
  sha256_hex := fun s => "sha256$" +:+ s;
  randomBytes_hex := hex_of;
  sendEmail := fun m => negb (String.eqb (mail_to m) "bounce@wildway.io")
|}.

(** Ada changed her password at time 500 and holds a live reset token. *)
Definition ada : User :=
  mkUser 1 "Ada" "ada@wildway.io" (Some "bcrypt$lovelace") None "user"
         (Some 500) (Some "sha256$r3s3t") (Some 5000).

Definition bob : User :=
  mkUser 2 "Bob" "bounce@wildway.io" (Some "bcrypt$builder") None "admin"
         None None None.

Definition users : list User := [ada; bob].

Definition request (auth cookie : option string)
  (fields : list (string * string)) (token : string) (u : option User) : Req :=
  mkReq auth cookie (list_to_map fields) token "https" "wildway.io" u.

Definition anonymous (fields : list (string * string)) : Req :=
  request None None fields "" None.

Definition bearer (token : string) : Req :=
  request (Some ("Bearer " +:+ token)) None [] "" None.

(** The same toy tokens with the issued-at time in whole seconds, as
    jsonwebtoken keeps it. *)
Definition sign_seconds (id : nat) (secret expiresIn : string) (now : Z)
  : string :=
  sign id secret expiresIn (now / 1000).

Definition verify_seconds (token secret : string) (now : Z)
  : JwtError + TokenPayload :=
  verify token secret (now / 1000).

Definition externals_seconds : Externals := {|
  JWT_SECRET := "s3cret";
  JWT_EXPIRES_IN := "90d";
  JWT_COOKIE_EXPIRES_IN := 90;
  jwt_sign := sign_seconds;
  jwt_verify := verify_seconds;
  bcrypt_hash := fun p => "bcrypt$" +:+ p;
  bcrypt_compare := fun p h => String.eqb ("bcrypt$" +:+ p) h;
  sha256_hex := fun s => "sha256$" +:+ s;
  randomBytes_hex := hex_of;
  sendEmail := fun m => negb (String.eqb (mail_to m) "bounce@wildway.io")
|}.

(** A reset request carrying Ada's raw reset token. *)
Definition reset_request (pw : string) : Req :=
  request None None [("password", pw); ("confirmPassword", pw)] "r3s3t" None.

End Demo.

(** * Properties of the controller *)

(** Unfolds the handler monad and the handlers down to the pure lookups,
    the validators and the external functions. *)
Ltac run :=
  cbv beta iota zeta delta
    [handle and_then catchAsync mbind M_bind mret M_ret throw emit get_req
     get_db put_db put_req_user Date_now draw_entropy next next_error
     res_cookie res_status_json next_calls
     signToken createSendToken signup login getCurrentUser logout protect
     verify_token restrictTo forgotPassword resetPassword updatePassword
     User_findOne_email User_findById User_findOne_reset save User_create
     passwordResetToken_call correctPassword send
     fmap option_fmap option_map option_bind from_option id negb andb orb
     last omap list_omap
     fst snd req db clock entropy trace app].

Section Properties.
Context {ext : Externals}.

(** *** restrictTo *)

(** X11: whatever the allowed roles, a request that carries a user passes the
    gate: the handler's only effect is one call of [next()] without an
    error. *)
Lemma restrictTo_always_proceeds roles r u users now seed :
  user r = Some u ->
  trace (handle (restrictTo roles) r users now seed) = [EvNext None].
Proof.
  intros Hu. run. rewrite Hu. now destruct (includes roles (role u)).
Qed.

(** *** protect *)

Lemma changedPasswordAfter_select b u i :
  changedPasswordAfter (select b u) i = changedPasswordAfter u i.
Proof. now destruct b. Qed.

(** C2: once the token is extracted and verified and its user found, a
    token issued before the user's [passwordChangedAt] is rejected: the
    only effect is [next] called with the 401 error, and no user is
    attached. A token issued at or after the last password change, or for a
    user who never changed it, is accepted: the only effect is [next()],
    with the user (read without the password) attached to the request. *)
Theorem protect_rejects_stale_accepts_fresh r users now seed tok d u :
  extract_token r = Some tok ->
  truthy (Some tok) = true ->
  jwt_verify tok JWT_SECRET now = inr d ->
  find_by_id (payload_id d) users = Some u ->
  let c := handle protect r users now seed in
  (forall t,
      passwordChangedAt u = Some t -> iat d < t ->
      trace c
      = [EvNext
           (Some (ThrownApp
                    (mkAppError
                       "User recently changed his password! Please log in again."
                       401)))]
      /\ user (req c) = user r)
  /\ (forall t,
        passwordChangedAt u = Some t -> t <= iat d ->
        trace c = [EvNext None] /\ user (req c) = Some (select false u))
  /\ (passwordChangedAt u = None ->
      trace c = [EvNext None] /\ user (req c) = Some (select false u)).
Proof.
  intros Htok Htruthy Hverify Hfind. run.
  rewrite Htok, Htruthy. run. rewrite Hverify. run. rewrite Hfind. run.
  rewrite changedPasswordAfter_select. unfold changedPasswordAfter.
  split; [|split].
  - intros t Hchanged Hlt. rewrite Hchanged.
    apply Z.ltb_lt in Hlt. rewrite Hlt. split; reflexivity.
  - intros t Hchanged Hle. rewrite Hchanged.
    assert (Hge : Z.ltb (iat d) t = false) by (apply Z.ltb_ge; lia).
    rewrite Hge. split; reflexivity.
  - intros Hchanged. rewrite Hchanged. split; reflexivity.
Qed.

(** C7, as the code has it: when verification of the extracted token
    fails, [protect] hands the verifier's own error, unchanged, to the
    error path by one call of [next(err)]; no user is attached, nothing is
    sent and the store is untouched. *)
Theorem protect_forwards_verification_error r users now seed tok e :
  extract_token r = Some tok ->
  truthy (Some tok) = true ->
  jwt_verify tok JWT_SECRET now = inl e ->
  let c := handle protect r users now seed in
  trace c = [EvNext (Some (ThrownJwt e))]
  /\ user (req c) = user r
  /\ db c = users.
Proof.
  intros Htok Htruthy Hverify. run.
  rewrite Htok, Htruthy. run. rewrite Hverify. run. repeat split.
Qed.

(** *** logout *)

Lemma logout_once r users now seed :
  handle logout r users now seed
  = mkCtx r users now seed (logout_effects now).
Proof. reflexivity. Qed.

Lemma serve_all_logout rs users seed :
  serve_all logout rs users seed
  = (map (fun p => logout_effects (snd p)) rs, users, seed).
Proof.
  induction rs as [|[r now] rs IH]; [reflexivity|].
  cbn [serve_all]. rewrite logout_once. cbn [db entropy trace].
  rewrite IH. reflexivity.
Qed.

Lemma client_jar_app evs1 evs2 jar :
  client_jar (evs1 ++ evs2) jar = client_jar evs2 (client_jar evs1 jar).
Proof.
  revert jar. induction evs1 as [|e evs1 IH]; intros jar; [reflexivity|].
  destruct e; cbn [app client_jar]; apply IH.
Qed.

Lemma client_jar_logout now jar :
  client_jar (logout_effects now) jar
  = <["jwt" := ("loggedout", now + 10000)]> jar.
Proof. reflexivity. Qed.

Lemma client_jar_logouts (nows : list Z) jar now :
  client_jar (concat (map logout_effects (nows ++ [now]))) jar
  = <["jwt" := ("loggedout", now + 10000)]> jar.
Proof.
  revert jar. induction nows as [|n nows IH]; intros jar.
  - cbn [app map concat]. rewrite app_nil_r. apply client_jar_logout.
  - cbn [app map concat]. rewrite client_jar_app, IH, client_jar_logout.
    apply insert_insert_eq.
Qed.

Lemma logout_effects_seq (rs : list (Req * Z)) r now :
  map (fun p : Req * Z => logout_effects (snd p)) (rs ++ [(r, now)])
  = map logout_effects (map snd rs ++ [now]).
Proof. rewrite !List.map_app, List.map_map. reflexivity. Qed.

(** C8: any number of logout calls, whatever the requests carry and
    whatever store they meet, each send the sentinel cookie expiring ten
    seconds after the call together with the 200 response, and leave the
    store alone; the client ends with the cookie that a single call (at the
    time of the last one) leaves. *)
Theorem logout_idempotent (rs : list (Req * Z)) r now users seed jar :
  let session := (rs ++ [(r, now)])%list in
  let out := map (fun p : Req * Z => logout_effects (snd p)) session in
  serve_all logout session users seed = (out, users, seed)
  /\ client_jar (concat out) jar
     = client_jar (trace (handle logout r users now seed)) jar
  /\ client_jar (concat out) jar !! "jwt" = Some ("loggedout", now + 10000).
Proof.
  cbv zeta. rewrite serve_all_logout, logout_effects_seq, client_jar_logouts.
  repeat split.
  apply lookup_insert_eq.
Qed.

(** *** The password never leaves *)

Lemma user_to_json_hides_password u :
  password u = None -> mentions "password" (user_to_json u) = false.
Proof.
  intros Hp. unfold user_to_json. rewrite Hp.
  destruct (confirmPassword u), (passwordChangedAt u),
    (passwordResetToken u), (passwordResetExpires u); reflexivity.
Qed.

Lemma hides_password_token_response code token u :
  hides_password
    (EvJson code
       (JObj [("status", JStr "success");
              ("token", JStr token);
              ("data", JObj [("user", user_to_json (set_password None u))])]))
  = true.
Proof.
  unfold hides_password.
  change (mentions "password" (JObj _))
    with (mentions "password" (user_to_json (set_password None u))
          || false || false)%bool.
  now rewrite user_to_json_hides_password.
Qed.

Lemma hides_password_current_user u :
  hides_password
    (EvJson 200
       (JObj [("status", JStr "success");
              ("data", JObj (opt_field "user" user_to_json
                               (Some (select false u))))]))
  = true.
Proof.
  unfold hides_password.
  change (mentions "password" (JObj _))
    with (mentions "password" (user_to_json (select false u))
          || false || false)%bool.
  now rewrite user_to_json_hides_password.
Qed.

(** Splits on the value the handler branches on next. *)
Ltac branch :=
  match goal with
  | |- context [match ?x with _ => _ end] =>
      lazymatch x with
      | context [match _ with _ => _ end] => fail
      | _ => destruct x eqn:?
      end
  end.

Ltac paths := run; repeat (branch; run); cbn [user set_user].

Ltac no_password :=
  unfold no_password_sent; paths; cbn [forallb];
  rewrite ?hides_password_token_response, ?hides_password_current_user;
  reflexivity.

(** C3: whatever the request and the store, no response body sent by
    signup, login, resetPassword, updatePassword or by getCurrentUser behind
    protect has a [password] property, in the user object or anywhere
    else. *)
Theorem password_never_serialised r users now seed :
  no_password_sent (handle signup r users now seed) = true
  /\ no_password_sent (handle login r users now seed) = true
  /\ no_password_sent (handle resetPassword r users now seed) = true
  /\ no_password_sent (handle updatePassword r users now seed) = true
  /\ no_password_sent (handle (and_then protect getCurrentUser) r users now seed)
     = true.
Proof.
  repeat split.
  - no_password.
  - no_password.
  - no_password.
  - no_password.
  - no_password.
Qed.

(** *** login *)

(** C4: a login with a known email and a wrong password and a login with
    an unknown email have the same observable outcome: one call of
    [next] with the same 401 error, nothing sent, the store untouched. *)
Theorem login_failures_indistinguishable
  r1 users1 now1 seed1 r2 users2 now2 seed2 e1 p1 u h e2 :
  body r1 !! "email" = Some e1 ->
  truthy (Some e1) = true ->
  body r1 !! "password" = Some p1 ->
  truthy (Some p1) = true ->
  find_by_email e1 users1 = Some u ->
  password u = Some h ->
  bcrypt_compare p1 h = false ->
  body r2 !! "email" = Some e2 ->
  truthy (Some e2) = true ->
  truthy (body r2 !! "password") = true ->
  find_by_email e2 users2 = None ->
  let c1 := handle login r1 users1 now1 seed1 in
  let c2 := handle login r2 users2 now2 seed2 in
  trace c1 = trace c2
  /\ trace c1 = [EvNext (Some bad_credentials_error)]
  /\ db c1 = users1 /\ db c2 = users2.
Proof.
  intros He1 Ht1 Hp1 Htp1 Hfind1 Hpw Hcmp He2 Ht2 Htp2 Hfind2.
  assert (Hwrong : trace (handle login r1 users1 now1 seed1)
                   = [EvNext (Some bad_credentials_error)]
                   /\ db (handle login r1 users1 now1 seed1) = users1).
  { run. rewrite He1, Hp1, Ht1, Htp1. run. rewrite Hfind1. run.
    cbn [select]. rewrite Hpw. run. rewrite Hcmp. run. split; reflexivity. }
  assert (Hunknown : trace (handle login r2 users2 now2 seed2)
                     = [EvNext (Some bad_credentials_error)]
                     /\ db (handle login r2 users2 now2 seed2) = users2).
  { run. rewrite He2, Ht2, Htp2. run. rewrite Hfind2. run. split; reflexivity. }
  cbv zeta. destruct Hwrong as [-> ->], Hunknown as [-> ->]. repeat split.
Qed.

(** *** Reset tokens *)

Lemma reset_filter_holds h now x :
  reset_filter h now x = true -> holds_reset_token h x = true.
Proof.
  unfold reset_filter, holds_reset_token.
  destruct (passwordResetToken x); [|discriminate].
  destruct (passwordResetExpires x); [|discriminate].
  intros H. apply andb_prop in H. tauto.
Qed.

(** After a save of a document without reset token, the hashed token [h]
    selects nobody, provided only that document's record could hold it. *)
Lemma find_by_reset_after_clear h now doc l :
  passwordResetToken doc = None ->
  only_holder h (_id doc) l = true ->
  find_by_reset h now (write_user doc l) = None.
Proof.
  intros Hdoc Honly. unfold find_by_reset, write_user.
  induction l as [|x l IH]; [reflexivity|].
  cbn [only_holder forallb] in Honly. apply andb_prop in Honly as [Hx Hl].
  cbn [map List.find].
  destruct (Nat.eqb (_id x) (_id doc)) eqn:Hid.
  - unfold reset_filter at 1. cbn [stored_form passwordResetToken].
    rewrite Hdoc. now apply IH.
  - rewrite orb_false_r in Hx.
    destruct (reset_filter h now x) eqn:Hf.
    + apply reset_filter_holds in Hf. rewrite Hf in Hx. discriminate.
    + now apply IH.
Qed.

Lemma write_user_cleared doc l :
  reset_cleared doc = true ->
  reset_cleared_in (_id doc) (write_user doc l) = true.
Proof.
  intros Hdoc. unfold reset_cleared_in, write_user.
  induction l as [|x l IH]; [reflexivity|].
  cbn [map forallb]. rewrite IH, andb_true_r.
  destruct (Nat.eqb (_id x) (_id doc)) eqn:Hid.
  - cbn [stored_form _id]. rewrite Nat.eqb_refl.
    unfold reset_cleared in *. cbn [stored_form passwordResetToken passwordResetExpires].
    now rewrite Hdoc.
  - now rewrite Hid.
Qed.

(** A reset request whose token selects nobody fails with the 400 error
    and changes nothing. *)
Lemma resetPassword_rejects r users now seed :
  find_by_reset (sha256_hex (params_token r)) now users = None ->
  handle resetPassword r users now seed
  = mkCtx r users now seed [EvNext (Some invalid_token_error)].
Proof. intros Hfind. run. rewrite Hfind. reflexivity. Qed.

(** C5: when resetPassword consumes a token (the user is found and the
    request ends with [next()]), the document it saves has both reset
    fields cleared and overwrites the stored record, which then has both
    fields unset; provided no other account holds the same hashed token,
    every later resetPassword with the same raw token, at any time and with
    any body, fails with the 400 error and changes nothing. *)
Theorem resetPassword_token_single_use r users now seed u :
  find_by_reset (sha256_hex (params_token r)) now users = Some u ->
  next_calls (handle resetPassword r users now seed) = [None] ->
  let c := handle resetPassword r users now seed in
  (exists doc rest,
      trace c = EvSave true doc :: rest
      /\ _id doc = _id u
      /\ reset_cleared doc = true
      /\ db c = write_user doc users)
  /\ reset_cleared_in (_id u) (db c) = true
  /\ (only_holder (sha256_hex (params_token r)) (_id u) users = true ->
      forall r2 now2 seed2,
        params_token r2 = params_token r ->
        let c2 := handle resetPassword r2 (db c) now2 seed2 in
        trace c2 = [EvNext (Some invalid_token_error)] /\ db c2 = db c).
Proof.
  intros Hfind Hok. cbv zeta.
  set (doc := resetPassword_assign (body r) (select false u)).
  assert (Hdb : db (handle resetPassword r users now seed) = write_user doc users
                /\ exists rest, trace (handle resetPassword r users now seed)
                                = EvSave true doc :: rest).
  { revert Hok. run. rewrite Hfind. run. fold doc.
    destruct (credentials_valid (password doc) (confirmPassword doc));
      run; [|discriminate].
    intros _. split; [reflexivity|]. eexists. reflexivity. }
  destruct Hdb as [Hdb [rest Htrace]].
  assert (Hclear : reset_cleared doc = true) by reflexivity.
  assert (Hid : _id doc = _id u) by (unfold doc; now destruct u).
  split; [exists doc, rest; repeat split; assumption|].
  rewrite Hdb. split.
  { rewrite <- Hid. now apply write_user_cleared. }
  intros Honly r2 now2 seed2 Htok.
  rewrite resetPassword_rejects; [split; reflexivity|].
  rewrite Htok. apply find_by_reset_after_clear; [reflexivity|].
  now rewrite Hid.
Qed.

(** C6: when the mail cannot be delivered, forgotPassword saves the user
    with both reset fields cleared, without validation, and only then
    calls [next] with the 500 error; nothing is sent. The cleared document
    overwrites the stored record, which has no reset token afterwards, and
    provided no other account holds the hash of the raw token that was
    drawn, resetPassword with that raw token fails with the 400 error. *)
Theorem forgotPassword_send_failure_clears_token r users now seed e u :
  body r !! "email" = Some e ->
  find_by_email e users = Some u ->
  sendEmail (reset_mail r (email u) (randomBytes_hex seed)) = false ->
  let c := handle forgotPassword r users now seed in
  (exists doc,
      trace c
      = [EvMail (reset_mail r (email u) (randomBytes_hex seed)) false;
         EvSave false doc;
         EvNext (Some (ThrownApp
                         (mkAppError
                            "There was an error sending the email. Try again later!"
                            500)))]
      /\ _id doc = _id u
      /\ reset_cleared doc = true
      /\ db c = write_user doc users)
  /\ reset_cleared_in (_id u) (db c) = true
  /\ (only_holder (sha256_hex (randomBytes_hex seed)) (_id u) users = true ->
      forall r2 now2 seed2,
        params_token r2 = randomBytes_hex seed ->
        trace (handle resetPassword r2 (db c) now2 seed2)
        = [EvNext (Some invalid_token_error)]).
Proof.
  intros Hmail Hfind Hsend. cbv zeta.
  set (doc := set_passwordResetExpires None
                (set_passwordResetToken None
                   (set_passwordResetExpires (Some (now + 10 * 60 * 1000))
                      (set_passwordResetToken
                         (Some (sha256_hex (randomBytes_hex seed)))
                         (select false u))))).
  assert (Hid : _id doc = _id u) by (unfold doc; now destruct u).
  assert (Hem : email (select false u) = email u) by reflexivity.
  assert (Hrun : handle forgotPassword r users now seed
                 = mkCtx r (write_user doc users) now (S seed)
                     [EvMail (reset_mail r (email u) (randomBytes_hex seed)) false;
                      EvSave false doc;
                      EvNext (Some (ThrownApp
                                      (mkAppError
                                         "There was an error sending the email. Try again later!"
                                         500)))]).
  { run. rewrite Hmail. run. rewrite Hfind. run.
    cbn [set_passwordResetExpires set_passwordResetToken email].
    rewrite Hem, Hsend. reflexivity. }
  rewrite Hrun. cbn [trace db]. split; [|split].
  - exists doc. split; [reflexivity|]. split; [exact Hid|].
    split; reflexivity.
  - rewrite <- Hid. now apply write_user_cleared.
  - intros Honly r2 now2 seed2 Htok.
    rewrite resetPassword_rejects; [reflexivity|].
    rewrite Htok. apply find_by_reset_after_clear; [reflexivity|].
    now rewrite Hid.
Qed.

(** *** signup *)

Lemma signup_input_agree (b1 b2 : gmap string string) :
  (forall k, In k signup_fields -> b1 !! k = b2 !! k) ->
  signup_input b1 = signup_input b2.
Proof.
  intros H. unfold signup_input.
  rewrite (H "name"), (H "email"), (H "password"), (H "confirmPassword");
    [reflexivity|cbn; tauto..].
Qed.

Lemma signup_input_role (b : gmap string string) :
  signup_input b !! "role" = None.
Proof.
  unfold signup_input.
  destruct (b !! "name"), (b !! "email"), (b !! "password"),
    (b !! "confirmPassword"); cbn [object_of];
    repeat (rewrite lookup_insert_ne by discriminate); apply lookup_empty.
Qed.


Lemma object_of_lookup_cons k k1 v l :
  object_of ((k1, v) :: l) !! k
  = if String.eqb k k1
    then match v with
         | Some x => Some x
         | None => object_of l !! k
         end
    else object_of l !! k.
Proof.
  destruct (String.eqb_spec k k1) as [->|Hne]; destruct v as [x|];
    cbn [object_of]; try reflexivity.
  - apply lookup_insert_eq.
  - apply lookup_insert_ne. congruence.
Qed.

(** The object [signup] hands to [User.create] has the four fields of the
    body and nothing else. *)
Lemma signup_input_lookup (b : gmap string string) k :
  signup_input b !! k = if includes signup_fields k then b !! k else None.
Proof.
  unfold signup_input. rewrite !object_of_lookup_cons.
  cbn [object_of]. rewrite lookup_empty.
  unfold includes, signup_fields. cbn [existsb].
  destruct (String.eqb_spec k "name") as [->|_].
  { cbn. now destruct (b !! "name"). }
  destruct (String.eqb_spec k "email") as [->|_].
  { cbn. now destruct (b !! "email"). }
  destruct (String.eqb_spec k "password") as [->|_].
  { cbn. now destruct (b !! "password"). }
  destruct (String.eqb_spec k "confirmPassword") as [->|_].
  { cbn. now destruct (b !! "confirmPassword"). }
  reflexivity.
Qed.

Lemma email_free e l :
  find_by_email e l = None ->
  existsb (fun u => String.eqb (email u) (toLowerCase e)) l = false.
Proof.
  unfold find_by_email. induction l as [|x l IH]; [reflexivity|].
  cbn [List.find existsb].
  destruct (String.eqb (email x) (toLowerCase e)); [discriminate|exact IH].
Qed.

(** C9: the object signup hands to [User.create], its first effect, holds
    the body's name, email, password and confirmPassword and no other
    field. Two requests that agree on these four have the same effects and
    leave the same store, whatever else (a role, say) either body carries.
    signup adds at most one user, with the default role; and when the four
    fields are present, the password confirmed and the email free, the user
    it adds has the body's name, the case-normalised email, the hashed
    password and the default role. *)
Theorem signup_reads_four_fields r1 r2 users now seed :
  (forall k, In k signup_fields -> body r1 !! k = body r2 !! k) ->
  let c1 := handle signup r1 users now seed in
  let c2 := handle signup r2 users now seed in
  let o := signup_input (body r1) in
  (forall k, o !! k = if includes signup_fields k then body r1 !! k else None)
  /\ (exists rest, trace c1 = EvCreate o :: rest)
  /\ trace c1 = trace c2
  /\ db c1 = db c2
  /\ (db c1 = users
      \/ exists doc, db c1 = (users ++ [doc])%list /\ role doc = default_role)
  /\ (forall n e p,
        body r1 !! "name" = Some n ->
        body r1 !! "email" = Some e ->
        body r1 !! "password" = Some p ->
        body r1 !! "confirmPassword" = Some p ->
        truthy (Some n) = true ->
        truthy (Some e) = true ->
        truthy (Some p) = true ->
        find_by_email e users = None ->
        db c1
        = (users
           ++ [mkUser (fresh_id users) n (toLowerCase e) (Some (bcrypt_hash p))
                 None default_role None None None])%list).
Proof.
  intros H. pose proof (signup_input_agree _ _ H) as Heq. cbv zeta.
  split; [apply signup_input_lookup|].
  split; [paths; eexists; reflexivity|].
  assert (Hsame :
            trace (handle signup r1 users now seed)
            = trace (handle signup r2 users now seed)
            /\ db (handle signup r1 users now seed)
               = db (handle signup r2 users now seed)
            /\ (db (handle signup r1 users now seed) = users
                \/ exists doc,
                     db (handle signup r1 users now seed) = (users ++ [doc])%list
                     /\ role doc = default_role)).
  { run. rewrite Heq, !signup_input_role.
    paths; repeat split; try (left; reflexivity).
    all: right; eexists; split; reflexivity. }
  destruct Hsame as [Htrace [Hdb Hrole]].
  split; [exact Htrace|]. split; [exact Hdb|]. split; [exact Hrole|].
  intros n e p Hn He Hp Hc Htn Hte Htp Hfree.
  assert (Hon : signup_input (body r1) !! "name" = Some n)
    by (rewrite signup_input_lookup; exact Hn).
  assert (Hoe : signup_input (body r1) !! "email" = Some e)
    by (rewrite signup_input_lookup; exact He).
  assert (Hop : signup_input (body r1) !! "password" = Some p)
    by (rewrite signup_input_lookup; exact Hp).
  assert (Hoc : signup_input (body r1) !! "confirmPassword" = Some p)
    by (rewrite signup_input_lookup; exact Hc).
  assert (Hvalid : credentials_valid (Some p) (Some p) = true).
  { cbn [credentials_valid]. cbn [truthy] in Htp.
    now rewrite Htp, String.eqb_refl. }
  run. rewrite Hon, Hoe, Hop, Hoc, signup_input_role, Htn, Hte, Hvalid. run.
  rewrite (email_free _ _ Hfree). reflexivity.
Qed.

(** *** The confirmation field *)


End Properties.





(** C1, evaluated on the code: with only [admin] allowed, a request whose
    authenticated user has role [user] is not stopped. The gate calls
    [next()] without an error and the 403 error never reaches the error
    path. *)
Theorem restrictTo_lets_forbidden_role_through :
  includes ["admin"] (role Demo.ada) = false /\
  next_calls (handle (restrictTo ["admin"])
                (Demo.request None None [] "" (Some Demo.ada))
                Demo.users 1000 0)
  = [None].
Proof. split; reflexivity. Qed.

(** * Further properties of the controllers *)

Section FurtherProperties.
Context {ext : Externals}.

(** Follows every path of a handler: unfolds it and splits on each value it
    branches on. *)
Ltac fork :=
  match goal with
  | |- context [match ?x with _ => _ end] =>
      lazymatch x with
      | context [match _ with _ => _ end] => fail
      | _ => destruct x eqn:?
      end
  end.

Ltac all_paths := run; repeat (fork; run); cbn [user set_user].

(** *** Splitting the Authorization header *)

Lemma split_on_nonempty sep s : split_on sep s <> [].
Proof.
  destruct s as [|c s]; cbn [split_on]; [discriminate|].
  destruct (Ascii.eqb c sep); [discriminate|].
  destruct (split_on sep s); discriminate.
Qed.

Lemma concat_two sep x y l :
  String.concat sep (x :: y :: l) = x +:+ sep +:+ String.concat sep (y :: l).
Proof. reflexivity. Qed.

(** X1: joining the pieces with the separator gives the string back, as
    [s.split(c).join(c)] does. *)
Theorem split_on_join sep s :
  String.concat (String sep EmptyString) (split_on sep s) = s.
Proof.
  induction s as [|c s IH]; [reflexivity|].
  cbn [split_on]. destruct (Ascii.eqb_spec c sep) as [->|Hne].
  - pose proof (split_on_nonempty sep s) as Hs.
    destruct (split_on sep s) as [|w ws]; [contradiction|].
    rewrite concat_two, IH. reflexivity.
  - destruct (split_on sep s) as [|w ws] eqn:Hs.
    + now apply split_on_nonempty in Hs.
    + destruct ws as [|y l].
      * change (String.concat (String sep "") [w]) with w in IH.
        now rewrite <- IH.
      * rewrite concat_two in *. rewrite <- IH. reflexivity.
Qed.

Lemma split_on_no_sep sep s :
  has_char sep s = false -> split_on sep s = [s].
Proof.
  induction s as [|c s IH]; [reflexivity|].
  cbn [has_char split_on]. intros H. apply orb_false_elim in H as [Hc Hs].
  rewrite Hc, (IH Hs). reflexivity.
Qed.

Lemma split_on_sep_head sep s :
  split_on sep (String sep s) = EmptyString :: split_on sep s.
Proof. cbn [split_on]. now rewrite Ascii.eqb_refl. Qed.

(** *** Token extraction *)

(** X2: a header [Bearer <token>] whose token has no space yields that token,
    whatever the cookie; with a header that does not start with [Bearer],
    or without a header, the cookie is the token when it is not empty. *)
Theorem extract_token_sources tok cookie b t p h u :
  has_char " " tok = false ->
  extract_token (mkReq (Some ("Bearer " +:+ tok)) cookie b t p h u) = Some tok
  /\ (forall header,
        startsWith "Bearer" header = false ->
        extract_token (mkReq (Some header) cookie b t p h u)
        = if truthy cookie then cookie else None)
  /\ extract_token (mkReq None cookie b t p h u)
     = if truthy cookie then cookie else None.
Proof.
  intros Hsp. split; [|split].
  - unfold extract_token. cbn [headers_authorization truthy from_option].
    change ("Bearer " +:+ tok)
      with (String "B" (String "e" (String "a" (String "r" (String "e"
             (String "r" (String " " tok))))))).
    cbn [String.eqb Ascii.eqb Bool.eqb negb andb startsWith String.prefix
         default from_option id].
    assert (Hpre : forall x, split_on " " (String "B" (String "e" (String "a"
                     (String "r" (String "e" (String "r" (String " " x)))))))
                   = "Bearer" :: split_on " " x).
    { intros x. cbn [split_on].
      change (Ascii.eqb "B" " ") with false. change (Ascii.eqb "e" " ") with false.
      change (Ascii.eqb "a" " ") with false. change (Ascii.eqb "r" " ") with false.
      change (Ascii.eqb " " " ") with true. cbn iota.
      destruct (split_on " " x); reflexivity. }
    rewrite Hpre, (split_on_no_sep _ _ Hsp). reflexivity.
  - intros header Hh. unfold extract_token.
    cbn [headers_authorization cookies_jwt from_option]. rewrite Hh, andb_false_r.
    reflexivity.
  - reflexivity.
Qed.

(** *** protect *)

(** X3: without a token, protect reports the 401 error at once, whatever the
    verifier and the store would say. *)
Theorem protect_without_token r users now seed :
  truthy (extract_token r) = false ->
  handle protect r users now seed
  = mkCtx r users now seed
      [EvNext
         (Some (ThrownApp
                  (mkAppError
                     "You are not logged in! Please log in to your account."
                     401)))].
Proof. intros H. run. rewrite H. reflexivity. Qed.

(** X4: an Authorization header that starts with [Bearer] but has no second
    space-separated part shadows the cookie: the request is refused as not
    logged in even when it carries a [jwt] cookie. *)
Theorem protect_bearer_header_shadows_cookie r users now seed header :
  headers_authorization r = Some header ->
  startsWith "Bearer" header = true ->
  has_char " " header = false ->
  next_calls (handle protect r users now seed)
  = [Some (ThrownApp
             (mkAppError
                "You are not logged in! Please log in to your account."
                401))]
  /\ user (req (handle protect r users now seed)) = user r.
Proof.
  intros Hh Hb Hsp.
  assert (Hnone : truthy (extract_token r) = false).
  { unfold extract_token. rewrite Hh. cbn [from_option default id].
    rewrite Hb, (split_on_no_sep _ _ Hsp).
    destruct header; [discriminate Hb|reflexivity]. }
  run. rewrite Hnone. split; reflexivity.
Qed.

(** X5: a verified token whose user is no longer in the store is refused with
    the 401 error; no user is attached and nothing else happens. *)
Theorem protect_unknown_user r users now seed tok d :
  extract_token r = Some tok ->
  truthy (Some tok) = true ->
  jwt_verify tok JWT_SECRET now = inr d ->
  find_by_id (payload_id d) users = None ->
  handle protect r users now seed
  = mkCtx r users now seed
      [EvNext
         (Some (ThrownApp
                  (mkAppError
                     "The user belonging to this token no longer exists!"
                     401)))].
Proof.
  intros Htok Htruthy Hverify Hfind. run.
  rewrite Htok, Htruthy. run. rewrite Hverify. run. rewrite Hfind. reflexivity.
Qed.

(** *** login *)

(** X6: a login without an email or without a password (missing or empty) gets
    the 400 error before the store is consulted. *)
Theorem login_missing_credentials r users now seed :
  truthy (body r !! "email") = false \/ truthy (body r !! "password") = false ->
  handle login r users now seed
  = mkCtx r users now seed
      [EvNext
         (Some (ThrownApp
                  (mkAppError "Please provide email and password!" 400)))].
Proof.
  intros [H|H]; run; rewrite H; [reflexivity|].
  destruct (truthy (body r !! "email")); reflexivity.
Qed.

(** X7: a login with the right password, at a time and for a number of
    cookie days for which the expiry is an exact, valid Date, answers 200
    with a token signed for the user found, at the time of the request; the
    [jwt] cookie carries the same token, is http-only, not secure, and
    expires after the configured number of days. The store is left alone
    and [next] is not called. *)
Theorem login_success r users now seed e p u h :
  body r !! "email" = Some e ->
  truthy (Some e) = true ->
  body r !! "password" = Some p ->
  truthy (Some p) = true ->
  find_by_email e users = Some u ->
  password u = Some h ->
  bcrypt_compare p h = true ->
  cookie_expiry_valid JWT_COOKIE_EXPIRES_IN now = true ->
  let token := jwt_sign (_id u) JWT_SECRET JWT_EXPIRES_IN now in
  handle login r users now seed
  = mkCtx r users now seed
      [EvCookie (mkCookie "jwt" token
                   (now + JWT_COOKIE_EXPIRES_IN * 86400000) true false "Lax");
       EvJson 200
         (JObj [("status", JStr "success");
                ("token", JStr token);
                ("data", JObj [("user", user_to_json (set_password None u))])])]
  /\ Z.abs (now + JWT_COOKIE_EXPIRES_IN * 86400000) <= max_time_value.
Proof.
  intros He Hte Hp Htp Hfind Hpw Hcmp Hdate. cbv zeta. split.
  - run. rewrite He, Hp, Hte, Htp. run. rewrite Hfind. run.
    cbn [select]. rewrite Hpw. run. rewrite Hcmp. run.
    replace (now + JWT_COOKIE_EXPIRES_IN * 24 * 60 * 60 * 1000)
      with (now + JWT_COOKIE_EXPIRES_IN * 86400000) by lia.
    reflexivity.
  - unfold cookie_expiry_valid in Hdate.
    apply andb_prop in Hdate as [_ Hdate]. now apply Z.leb_le in Hdate.
Qed.

(** *** What the handlers leave alone *)

(** X9: login, protect, getCurrentUser, logout and restrictTo never write the
    store and draw no entropy, whatever the request. *)
Theorem read_only_handlers r users now seed roles :
  let untouched c := db c = users /\ entropy c = seed in
  untouched (handle login r users now seed)
  /\ untouched (handle protect r users now seed)
  /\ untouched (handle getCurrentUser r users now seed)
  /\ untouched (handle logout r users now seed)
  /\ untouched (handle (restrictTo roles) r users now seed).
Proof.
  cbv zeta. repeat apply conj; all_paths; reflexivity.
Qed.

(** X10: every handler of the controller ends a request in one way: at most one
    response is sent, [next] is called at most once, and never both a
    response and an error. *)
Theorem handlers_single_outcome r users now seed roles :
  single_outcome (handle signup r users now seed) = true
  /\ single_outcome (handle login r users now seed) = true
  /\ single_outcome (handle getCurrentUser r users now seed) = true
  /\ single_outcome (handle logout r users now seed) = true
  /\ single_outcome (handle protect r users now seed) = true
  /\ single_outcome (handle (restrictTo roles) r users now seed) = true
  /\ single_outcome (handle forgotPassword r users now seed) = true
  /\ single_outcome (handle resetPassword r users now seed) = true
  /\ single_outcome (handle updatePassword r users now seed) = true.
Proof.
  repeat apply conj; all_paths; reflexivity.
Qed.

(** *** getCurrentUser *)

Lemma user_to_json_shows_password u h :
  password u = Some h -> mentions "password" (user_to_json u) = true.
Proof. intros Hp. unfold user_to_json. rewrite Hp. reflexivity. Qed.

(** X12: getCurrentUser sends the attached user as it is: when that user carries
    a password, the response body has it. *)
Theorem getCurrentUser_does_not_strip r users now seed u h :
  user r = Some u ->
  password u = Some h ->
  trace (handle getCurrentUser r users now seed)
  = [EvJson 200
       (JObj [("status", JStr "success");
              ("data", JObj [("user", user_to_json u)])])]
  /\ no_password_sent (handle getCurrentUser r users now seed) = false.
Proof.
  intros Hu Hp.
  assert (Ht : trace (handle getCurrentUser r users now seed)
               = [EvJson 200
                    (JObj [("status", JStr "success");
                           ("data", JObj [("user", user_to_json u)])])]).
  { run. rewrite Hu. reflexivity. }
  split; [exact Ht|].
  unfold no_password_sent. rewrite Ht. cbn [forallb hides_password].
  change (mentions "password" (JObj _))
    with (mentions "password" (user_to_json u) || false || false)%bool.
  now rewrite (user_to_json_shows_password _ _ Hp).
Qed.

(** *** forgotPassword *)

(** X13: for an email that is missing or belongs to nobody, forgotPassword
    reports the 404 error: no token is drawn, no mail is sent, the store is
    untouched. *)
Theorem forgotPassword_unknown_email r users now seed :
  (forall e, body r !! "email" = Some e -> find_by_email e users = None) ->
  handle forgotPassword r users now seed
  = mkCtx r users now seed
      [EvNext
         (Some (ThrownApp
                  (mkAppError "There is no user with this email address!"
                     404)))].
Proof.
  intros H. run. destruct (body r !! "email") as [e|].
  - rewrite (H e eq_refl). reflexivity.
  - reflexivity.
Qed.

(** X14: when the mail is delivered, forgotPassword sends one mail, to the
    address stored for the user, answers 200 with a fixed body that holds
    neither the raw nor the hashed token, and then calls [next()]. *)
Theorem forgotPassword_success r users now seed e u :
  body r !! "email" = Some e ->
  find_by_email e users = Some u ->
  sendEmail (reset_mail r (email u) (randomBytes_hex seed)) = true ->
  trace (handle forgotPassword r users now seed)
  = [EvMail (reset_mail r (email u) (randomBytes_hex seed)) true;
     EvJson 200
       (JObj [("status", JStr "success");
              ("message", JStr "Token sent to email!")]);
     EvNext None].
Proof.
  intros Hmail Hfind Hsend.
  assert (Hem : email (select false u) = email u) by reflexivity.
  run. rewrite Hmail. run. rewrite Hfind. run.
  cbn [set_passwordResetExpires set_passwordResetToken email].
  rewrite Hem, Hsend. reflexivity.
Qed.

(** *** resetPassword *)

Lemma holders_expired_find h now l :
  holders_expired h now l = true -> find_by_reset h now l = None.
Proof.
  unfold holders_expired, find_by_reset.
  induction l as [|x l IH]; [reflexivity|].
  cbn [forallb List.find]. intros H. apply andb_prop in H as [Hx Hl].
  rewrite (IH Hl).
  assert (Hf : reset_filter h now x = false); [|now rewrite Hf].
  unfold reset_filter, holds_reset_token in *.
  destruct (passwordResetToken x) as [t|]; [|reflexivity].
  destruct (passwordResetExpires x) as [e|]; [|reflexivity].
  destruct (String.eqb t h); [|reflexivity].
  cbn [negb orb andb] in *. apply Z.leb_le in Hx. apply Z.ltb_ge. lia.
Qed.

(** X15: a reset token whose expiry has passed is refused with the 400 error,
    even when its hash matches; nothing is saved or sent. *)
Theorem resetPassword_expired_token r users now seed :
  holders_expired (sha256_hex (params_token r)) now users = true ->
  handle resetPassword r users now seed
  = mkCtx r users now seed [EvNext (Some invalid_token_error)].
Proof.
  intros H. apply resetPassword_rejects. now apply holders_expired_find.
Qed.

(** *** updatePassword *)

(** X16: with a wrong current password, updatePassword reports the 401 error
    and saves nothing. *)
Theorem updatePassword_wrong_current r users now seed me u h p :
  user r = Some me ->
  find_by_id (_id me) users = Some u ->
  password u = Some h ->
  body r !! "passwordCurrent" = Some p ->
  bcrypt_compare p h = false ->
  handle updatePassword r users now seed
  = mkCtx r users now seed
      [EvNext
         (Some (ThrownApp (mkAppError "Your current password is wrong!" 401)))].
Proof.
  intros Hme Hfind Hpw Hcur Hcmp. run. rewrite Hme. run. rewrite Hfind. run.
  rewrite Hcur. cbn [select]. rewrite Hpw. run. rewrite Hcmp. reflexivity.
Qed.

(** X17: updatePassword does not check that the lookup found the user: when the
    record of the attached user is gone, what reaches the error path is a
    TypeError, not an operational error with a status code; the same holds
    when no user is attached. *)
Theorem updatePassword_missing_record r users now seed :
  (forall me, user r = Some me -> find_by_id (_id me) users = None) ->
  exists msg,
    handle updatePassword r users now seed
    = mkCtx r users now seed [EvNext (Some (ThrownType msg))].
Proof.
  intros H. destruct (user r) as [me|] eqn:Hme.
  - eexists. run. rewrite Hme. run. rewrite (H me eq_refl). reflexivity.
  - eexists. run. rewrite Hme. reflexivity.
Qed.

Lemma find_by_id_found id l u : find_by_id id l = Some u -> _id u = id.
Proof.
  intros H. apply List.find_some in H as [_ H]. now apply Nat.eqb_eq in H.
Qed.

Lemma find_by_id_write_user doc l x :
  find_by_id (_id doc) l = Some x ->
  find_by_id (_id doc) (write_user doc l) = Some (stored_form x doc).
Proof.
  unfold find_by_id, write_user. induction l as [|y l IH]; [discriminate|].
  cbn [List.find map]. destruct (Nat.eqb (_id y) (_id doc)) eqn:Hy.
  - intros [= ->]. cbn [stored_form _id]. now rewrite Nat.eqb_refl.
  - rewrite Hy. exact IH.
Qed.

(** X18: after updatePassword has succeeded, every token of that user issued
    before the change is refused by protect with the 401 error. *)
Theorem updatePassword_invalidates_old_tokens
  r users now seed me u r2 now2 seed2 tok d :
  user r = Some me ->
  find_by_id (_id me) users = Some u ->
  next_calls (handle updatePassword r users now seed) = [None] ->
  extract_token r2 = Some tok ->
  truthy (Some tok) = true ->
  jwt_verify tok JWT_SECRET now2 = inr d ->
  payload_id d = _id me ->
  iat d < now ->
  trace (handle protect r2 (db (handle updatePassword r users now seed))
           now2 seed2)
  = [EvNext
       (Some (ThrownApp
                (mkAppError
                   "User recently changed his password! Please log in again."
                   401)))].
Proof.
  intros Hme Hfind Hok Htok Htruthy Hverify Hid Hlt.
  set (doc := updatePassword_assign (body r) now (select true u)).
  assert (Hdb : db (handle updatePassword r users now seed)
                = write_user doc users).
  { revert Hok. run. rewrite Hme. run. rewrite Hfind. run. fold doc.
    all_paths; intros Hok; try discriminate Hok; reflexivity. }
  assert (Hdoc : _id doc = _id me).
  { unfold doc. cbn. now apply find_by_id_found in Hfind. }
  rewrite Hdb. run. rewrite Htok, Htruthy. run. rewrite Hverify. run.
  rewrite Hid, <- Hdoc.
  rewrite (find_by_id_write_user doc users u) by now rewrite Hdoc.
  run. rewrite changedPasswordAfter_select.
  unfold changedPasswordAfter. cbn [stored_form passwordChangedAt doc
    updatePassword_assign set_passwordChangedAt].
  apply Z.ltb_lt in Hlt. rewrite Hlt. reflexivity.
Qed.

(** X8: the token a successful login sets as the [jwt] cookie, sent back
    as the cookie of a later request, passes protect and attaches the user,
    provided the verifier accepts it at that time for the user's id and the
    user's password was not changed after the token's issued-at time. *)
Theorem login_then_protect r users now seed e p u h r2 now2 seed2 d :
  body r !! "email" = Some e ->
  truthy (Some e) = true ->
  body r !! "password" = Some p ->
  truthy (Some p) = true ->
  find_by_email e users = Some u ->
  password u = Some h ->
  bcrypt_compare p h = true ->
  cookie_expiry_valid JWT_COOKIE_EXPIRES_IN now = true ->
  let token := jwt_sign (_id u) JWT_SECRET JWT_EXPIRES_IN now in
  headers_authorization r2 = None ->
  cookies_jwt r2 = Some token ->
  truthy (Some token) = true ->
  jwt_verify token JWT_SECRET now2 = inr d ->
  payload_id d = _id u ->
  find_by_id (_id u) users = Some u ->
  changedPasswordAfter u (iat d) = false ->
  let c := handle login r users now seed in
  let c2 := handle protect r2 (db c) now2 seed2 in
  fst <$> (client_jar (trace c) ∅ !! "jwt") = Some token
  /\ trace c2 = [EvNext None]
  /\ user (req c2) = Some (select false u).
Proof.
  intros He Hte Hp Htp Hfind Hpw Hcmp Hdate token Hauth Hcookie Htok Hverify
    Hpid Hid Hfresh. cbv zeta.
  assert (Hlogin :
            handle login r users now seed
            = mkCtx r users now seed
                [EvCookie (mkCookie "jwt" token
                             (now + JWT_COOKIE_EXPIRES_IN * 24 * 60 * 60 * 1000)
                             true false "Lax");
                 EvJson 200
                   (JObj [("status", JStr "success");
                          ("token", JStr token);
                          ("data",
                           JObj [("user",
                                  user_to_json (set_password None u))])])]).
  { run. rewrite He, Hp, Hte, Htp. run. rewrite Hfind. run.
    cbn [select]. rewrite Hpw. run. rewrite Hcmp. reflexivity. }
  rewrite Hlogin.
  cbn [trace db client_jar cookie_name cookie_value expires].
  split; [now rewrite lookup_insert_eq|].
  assert (Hex : extract_token r2 = Some token).
  { unfold extract_token. rewrite Hauth, Hcookie. cbn [truthy andb].
    fold (truthy (Some token)). now rewrite Htok. }
  run. rewrite Hex. fold token. rewrite Htok. run. fold token.
  rewrite Hverify. run. rewrite Hpid, Hid. run.
  rewrite changedPasswordAfter_select, Hfresh. split; reflexivity.
Qed.

End FurtherProperties.

(** *** The tour controller *)

(** X19: aliasTopTours fixes [limit], [sort] and [fields] whatever the client
    sent for them, leaves every other query parameter as it was, calls
    [next()], and applying it twice is the same as applying it once. *)
Theorem aliasTopTours_overrides (query : gmap string string) :
  let aliased := fst (Tour.aliasTopTours query) in
  aliased !! "limit" = Some "5"
  /\ aliased !! "sort" = Some "-ratingsAverage,price"
  /\ aliased !! "fields" = Some "name,price,ratingsAverage,summary,difficulty"
  /\ (forall k, k <> "limit" -> k <> "sort" -> k <> "fields" ->
                aliased !! k = query !! k)
  /\ Tour.aliasTopTours aliased = Tour.aliasTopTours query
  /\ snd (Tour.aliasTopTours query) = None.
Proof.
  cbv zeta. unfold Tour.aliasTopTours. cbn [fst snd].
  split; [|split; [|split; [|split; [|split]]]].
  - rewrite !lookup_insert. repeat case_decide; congruence.
  - rewrite !lookup_insert. repeat case_decide; congruence.
  - rewrite !lookup_insert. repeat case_decide; congruence.
  - intros k H1 H2 H3. rewrite !lookup_insert. repeat case_decide; congruence.
  - f_equal. apply map_eq. intros k. rewrite !lookup_insert.
    repeat case_decide; congruence.
  - reflexivity.
Qed.

Lemma Tour_find_in_spec ids store t :
  List.In t (Tour.Tour_find_in ids store)
  <-> List.In t store /\ List.In (Tour.tour_id t) ids.
Proof.
  unfold Tour.Tour_find_in. rewrite List.filter_In, List.existsb_exists.
  split.
  - intros [Hs [x [Hx Heq]]]. apply Nat.eqb_eq in Heq. now subst.
  - intros [Hs Hi]. split; [exact Hs|]. exists (Tour.tour_id t).
    split; [exact Hi|apply Nat.eqb_refl].
Qed.

Lemma NoDup_map_filter {A B} (f : A -> B) (p : A -> bool) (l : list A) :
  List.NoDup (map f l) -> List.NoDup (map f (List.filter p l)).
Proof.
  induction l as [|x l IH]; [intros; constructor|].
  cbn [map List.filter]. intros H. inversion H as [|? ? Hnot Hrest]; subst.
  destruct (p x); [|now apply IH].
  cbn [map]. constructor; [|now apply IH].
  intros Hin. apply Hnot. apply List.in_map_iff in Hin as [y [Hy Hin]].
  apply List.filter_In in Hin as [Hin _]. apply List.in_map_iff. now exists y.
Qed.

(** X20: getMyTours reports as [results] the number of the user's bookings, not
    of the tours it returns: the tours are the stored tours booked by the
    user, each once, so with distinct tour ids there are never more tours
    than [results] (and fewer when a tour is booked twice or is gone). *)
Theorem getMyTours_results me bookings store :
  exists out,
    Tour.getMyTours (Some me) bookings store = inr out
    /\ Tour.results out = length (Tour.Booking_find (_id me) bookings)
    /\ (forall t,
          List.In t (Tour.tours out)
          <-> List.In t store
              /\ exists b, List.In b bookings
                           /\ Tour.booking_user b = _id me
                           /\ Tour.booking_tour b = Tour.tour_id t)
    /\ (List.NoDup (map Tour.tour_id store) ->
        (length (Tour.tours out) <= Tour.results out)%nat).
Proof.
  eexists. split; [reflexivity|]. cbn [Tour.results Tour.tours].
  split; [reflexivity|]. split.
  - intros t. rewrite Tour_find_in_spec, List.in_map_iff.
    unfold Tour.Booking_find. split.
    + intros [Hs [b [Hb Hin]]]. apply List.filter_In in Hin as [Hin Hu].
      apply Nat.eqb_eq in Hu. split; [exact Hs|]. now exists b.
    + intros [Hs [b [Hin [Hu Hb]]]]. split; [exact Hs|]. exists b.
      split; [exact Hb|]. apply List.filter_In. split; [exact Hin|].
      now apply Nat.eqb_eq.
  - intros Hnd.
    rewrite <- (List.length_map Tour.booking_tour
                  (Tour.Booking_find (_id me) bookings)).
    rewrite <- (List.length_map Tour.tour_id (Tour.Tour_find_in _ store)).
    apply List.NoDup_incl_length.
    + unfold Tour.Tour_find_in. now apply NoDup_map_filter.
    + intros i Hi. apply List.in_map_iff in Hi as [t [<- Ht]].
      now apply Tour_find_in_spec in Ht.
Qed.

(** A tour booked twice counts twice in [results] and is returned once. *)
Example getMyTours_counts_bookings :
  Tour.getMyTours (Some Demo.ada)
    [Tour.mkBooking 1 7; Tour.mkBooking 1 7; Tour.mkBooking 2 8]
    [Tour.mkTour 7 "The Forest Hiker"; Tour.mkTour 8 "The Sea Explorer"]
  = inr (Tour.mkMyTours 2 [Tour.mkTour 7 "The Forest Hiker"]).
Proof. reflexivity. Qed.


(** ** The theorems at work on the demo store *)

Import Demo.

Example split_on_bearer :
  split_on " " "Bearer s3cret.1.100" = ["Bearer"; "s3cret.1.100"].
Proof. reflexivity. Qed.

Example split_on_double_space :
  split_on " " "Bearer  x" = ["Bearer"; ""; "x"].
Proof. reflexivity. Qed.

Example extract_token_header_first :
  extract_token (request (Some "Bearer s3cret.1.100") (Some "s3cret.2.100")
                   [] "" None)
  = Some "s3cret.1.100".
Proof. reflexivity. Qed.

Example extract_token_cookie :
  extract_token (request None (Some "s3cret.2.100") [] "" None)
  = Some "s3cret.2.100".
Proof. reflexivity. Qed.

(** A successful login answers with the user object, without its password,
    while the store keeps the hash. *)
Example login_strips_password :
  let c := handle (login (ext := externals))
             (anonymous [("email", "ada@wildway.io"); ("password", "lovelace")])
             users 1000 0 in
  trace c
  = [EvCookie (mkCookie "jwt" "s3cret.1.1000" 7776001000 true false "Lax");
     EvJson 200
       (JObj [("status", JStr "success");
              ("token", JStr "s3cret.1.1000");
              ("data",
               JObj [("user",
                      JObj [("_id", JNum 1); ("name", JStr "Ada");
                            ("email", JStr "ada@wildway.io");
                            ("role", JStr "user");
                            ("passwordChangedAt", JNum 500);
                            ("passwordResetToken", JStr "sha256$r3s3t");
                            ("passwordResetExpires", JNum 5000)])])])]
  /\ db c = users.
Proof. split; reflexivity. Qed.

(** [getCurrentUser] sends [req.user] as it is: the password stays out of
    its response because [protect] attaches a user read without it. *)
Example getCurrentUser_sends_user_as_is :
  mentions "password" (user_to_json ada) = true
  /\ no_password_sent
       (handle getCurrentUser (request None None [] "" (Some ada)) users 1000 0)
     = false
  /\ no_password_sent
       (handle (and_then (protect (ext := externals)) getCurrentUser)
          (request (Some "Bearer s3cret.1.900") None [] "" (Some ada)) users 1000 0)
     = true.
Proof. repeat split. Qed.

Example signup_ignores_role :
  db (handle (signup (ext := externals))
        (anonymous [("name", "Eve"); ("email", "Eve@X.io"); ("password", "pw1");
                    ("confirmPassword", "pw1"); ("role", "admin")])
        users 1000 0)
  = (users ++ [mkUser 3 "Eve" "eve@x.io" (Some "bcrypt$pw1") None "user"
                 None None None])%list.
Proof. reflexivity. Qed.

(** Changing the password invalidates old sessions: Bob logs in at time
    600 and his token passes [protect]; he changes his password at time
    800; afterwards the token of time 600 is refused and the one issued
    with the change passes. *)
Example password_change_invalidates_old_session :
  let c1 := handle (login (ext := externals))
              (anonymous [("email", "bounce@wildway.io");
                          ("password", "builder")])
              users 600 0 in
  let c2 := handle (protect (ext := externals)) (bearer "s3cret.2.600")
              (db c1) 700 0 in
  let c3 := handle (and_then (protect (ext := externals))
                      (updatePassword (ext := externals)))
              (request (Some "Bearer s3cret.2.600") None
                 [("passwordCurrent", "builder"); ("password", "n3w");
                  ("passwordConfirm", "n3w")] "" None)
              (db c2) 800 0 in
  let c4 := handle (protect (ext := externals)) (bearer "s3cret.2.600")
              (db c3) 900 0 in
  let c5 := handle (protect (ext := externals)) (bearer "s3cret.2.800")
              (db c3) 900 0 in
  client_jar (trace c1) ∅ !! "jwt" = Some ("s3cret.2.600", 7776000600)
  /\ trace c2 = [EvNext None]
  /\ client_jar (trace c3) ∅ !! "jwt" = Some ("s3cret.2.800", 7776000800)
  /\ passwordChangedAt <$> find_by_id 2 (db c3) = Some (Some 800)
  /\ trace c4
     = [EvNext
          (Some (ThrownApp
                   (mkAppError
                      "User recently changed his password! Please log in again."
                      401)))]
  /\ trace c5 = [EvNext None].
Proof. repeat split. Qed.

(** Ada's token of time 100 predates her password change at 500 and is
    refused; her token of time 900 is accepted, and so is Bob's, who never
    changed his password. *)
Lemma protect_rejects_stale_accepts_fresh_witness :
  (extract_token (bearer "s3cret.1.100") = Some "s3cret.1.100"
   /\ jwt_verify (Externals := externals) "s3cret.1.100" "s3cret" 1000
      = inr (mkPayload 1 100)
   /\ passwordChangedAt ada = Some 500
   /\ 100 < 500
   /\ trace (handle (protect (ext := externals)) (bearer "s3cret.1.100")
               users 1000 0)
      = [EvNext
           (Some (ThrownApp
                    (mkAppError
                       "User recently changed his password! Please log in again."
                       401)))])
  /\ (extract_token (bearer "s3cret.1.900") = Some "s3cret.1.900"
      /\ 500 <= 900
      /\ trace (handle (protect (ext := externals)) (bearer "s3cret.1.900")
                  users 1000 0)
         = [EvNext None])
  /\ (passwordChangedAt bob = None
      /\ trace (handle (protect (ext := externals)) (bearer "s3cret.2.100")
                  users 1000 0)
         = [EvNext None]).
Proof.
  split; [|split].
  - do 4 (split; [reflexivity|]).
    pose proof (protect_rejects_stale_accepts_fresh
                  (ext := externals) (bearer "s3cret.1.100") users 1000 0%nat
                  "s3cret.1.100" (mkPayload 1 100) ada
                  eq_refl eq_refl eq_refl eq_refl) as [Hstale _].
    exact (proj1 (Hstale 500 eq_refl eq_refl)).
  - split; [reflexivity|]. split; [lia|].
    pose proof (protect_rejects_stale_accepts_fresh
                  (ext := externals) (bearer "s3cret.1.900") users 1000 0%nat
                  "s3cret.1.900" (mkPayload 1 900) ada
                  eq_refl eq_refl eq_refl eq_refl) as [_ [Hfresh _]].
    refine (proj1 (Hfresh 500 eq_refl _)). cbn [iat]. lia.
  - split; [reflexivity|].
    pose proof (protect_rejects_stale_accepts_fresh
                  (ext := externals) (bearer "s3cret.2.100") users 1000 0%nat
                  "s3cret.2.100" (mkPayload 2 100) bob
                  eq_refl eq_refl eq_refl eq_refl) as [_ [_ Hnever]].
    exact (proj1 (Hnever eq_refl)).
Defined.

Lemma login_failures_indistinguishable_witness :
  let wrong := anonymous [("email", "ada@wildway.io"); ("password", "nope")] in
  let unknown := anonymous [("email", "zed@wildway.io"); ("password", "nope")] in
  find_by_email "ada@wildway.io" users = Some ada
  /\ bcrypt_compare (Externals := externals) "nope" "bcrypt$lovelace" = false
  /\ find_by_email "zed@wildway.io" users = None
  /\ trace (handle (login (ext := externals)) wrong users 1000 0)
     = trace (handle (login (ext := externals)) unknown users 2000 7).
Proof.
  cbv zeta. split; [reflexivity|]. split; [reflexivity|]. split; [reflexivity|].
  exact (proj1 (login_failures_indistinguishable
                  (ext := externals)
                  (anonymous [("email", "ada@wildway.io"); ("password", "nope")])
                  users 1000 0%nat
                  (anonymous [("email", "zed@wildway.io"); ("password", "nope")])
                  users 2000 7%nat
                  "ada@wildway.io" "nope" ada "bcrypt$lovelace" "zed@wildway.io"
                  eq_refl eq_refl eq_refl eq_refl eq_refl eq_refl eq_refl
                  eq_refl eq_refl eq_refl eq_refl)).
Defined.

Lemma resetPassword_token_single_use_witness :
  find_by_reset (sha256_hex (Externals := externals) "r3s3t") 1000 users
  = Some ada
  /\ next_calls (handle (resetPassword (ext := externals))
                   (reset_request "n3w") users 1000 0) = [None]
  /\ only_holder "sha256$r3s3t" 1 users = true
  /\ reset_cleared_in 1
       (db (handle (resetPassword (ext := externals))
              (reset_request "n3w") users 1000 0)) = true
  /\ trace (handle (resetPassword (ext := externals)) (reset_request "again")
              (db (handle (resetPassword (ext := externals))
                     (reset_request "n3w") users 1000 0))
              1001 0)
     = [EvNext (Some invalid_token_error)].
Proof.
  split; [reflexivity|]. split; [reflexivity|]. split; [reflexivity|].
  pose proof (resetPassword_token_single_use
                (ext := externals) (reset_request "n3w") users 1000 0%nat ada
                eq_refl eq_refl) as [_ [Hcleared Hlater]].
  split; [exact Hcleared|].
  exact (proj1 (Hlater eq_refl (reset_request "again") 1001 0%nat eq_refl)).
Defined.

Lemma forgotPassword_send_failure_clears_token_witness :
  let r := anonymous [("email", "bounce@wildway.io")] in
  find_by_email "bounce@wildway.io" users = Some bob
  /\ sendEmail (Externals := externals)
       (reset_mail r "bounce@wildway.io" "c0ffee") = false
  /\ only_holder "sha256$c0ffee" 2 users = true
  /\ reset_cleared_in 2
       (db (handle (forgotPassword (ext := externals)) r users 1000 0)) = true
  /\ trace (handle (resetPassword (ext := externals))
              (request None None [("password", "x"); ("confirmPassword", "x")]
                 "c0ffee" None)
              (db (handle (forgotPassword (ext := externals)) r users 1000 0))
              1001 1)
     = [EvNext (Some invalid_token_error)].
Proof.
  cbv zeta. split; [reflexivity|]. split; [reflexivity|]. split; [reflexivity|].
  pose proof (forgotPassword_send_failure_clears_token
                (ext := externals) (anonymous [("email", "bounce@wildway.io")])
                users 1000 0%nat "bounce@wildway.io" bob
                eq_refl eq_refl eq_refl) as [_ [Hcleared Hlater]].
  split; [exact Hcleared|].
  exact (Hlater eq_refl
           (request None None [("password", "x"); ("confirmPassword", "x")]
              "c0ffee" None)
           1001 1%nat eq_refl).
Defined.

Lemma protect_forwards_verification_error_witness :
  extract_token (bearer "garbage") = Some "garbage"
  /\ jwt_verify (Externals := externals) "garbage" "s3cret" 1000
     = inl (JsonWebTokenError "jwt malformed")
  /\ trace (handle (protect (ext := externals)) (bearer "garbage") users 1000 0)
     = [EvNext (Some (ThrownJwt (JsonWebTokenError "jwt malformed")))].
Proof.
  split; [reflexivity|]. split; [reflexivity|].
  exact (proj1 (protect_forwards_verification_error
                  (ext := externals) (bearer "garbage") users 1000 0%nat
                  "garbage" (JsonWebTokenError "jwt malformed")
                  eq_refl eq_refl eq_refl)).
Defined.

(** C7 as stated fails: for a malformed token the error that reaches the
    error path is no 401 error, whatever its message, and it differs from
    the one an expired token produces. *)
Lemma protect_bad_token_not_generic_401 :
  let malformed := handle (protect (ext := externals)) (bearer "garbage")
                     users 1000 0 in
  let expired := handle (protect (ext := externals)) (bearer "s3cret.1.100")
                   users 200000 0 in
  ~ (exists msg,
        next_calls malformed = [Some (ThrownApp (mkAppError msg 401))])
  /\ next_calls malformed <> next_calls expired.
Proof.
  cbv zeta. split.
  - intros [msg H]. vm_compute in H. discriminate H.
  - intros H. vm_compute in H. discriminate H.
Qed.

Lemma signup_reads_four_fields_witness :
  let fields := [("name", "Eve"); ("email", "Eve@X.io"); ("password", "pw1");
                 ("confirmPassword", "pw1")] in
  body (anonymous (("role", "admin") :: fields)) !! "role" = Some "admin"
  /\ find_by_email "Eve@X.io" users = None
  /\ signup_input (body (anonymous (("role", "admin") :: fields))) !! "role"
     = None
  /\ trace (handle (signup (ext := externals))
              (anonymous (("role", "admin") :: fields)) users 1000 0)
     = trace (handle (signup (ext := externals)) (anonymous fields) users 1000 0)
  /\ db (handle (signup (ext := externals))
           (anonymous (("role", "admin") :: fields)) users 1000 0)
     = (users ++ [mkUser 3 "Eve" "eve@x.io" (Some "bcrypt$pw1") None "user"
                    None None None])%list.
Proof.
  cbv zeta. split; [reflexivity|]. split; [reflexivity|].
  assert (Hagree : forall k, In k signup_fields ->
            body (anonymous [("role", "admin"); ("name", "Eve");
                             ("email", "Eve@X.io"); ("password", "pw1");
                             ("confirmPassword", "pw1")]) !! k
            = body (anonymous [("name", "Eve"); ("email", "Eve@X.io");
                               ("password", "pw1"); ("confirmPassword", "pw1")])
                !! k).
  { intros k [<-|[<-|[<-|[<-|[]]]]]; reflexivity. }
  pose proof (signup_reads_four_fields (ext := externals) _ _ users 1000 0%nat
                Hagree) as [Hobject [_ [Htrace [_ [_ Hcreated]]]]].
  split; [exact (Hobject "role")|]. split; [exact Htrace|].
  exact (Hcreated "Eve" "Eve@X.io" "pw1" eq_refl eq_refl eq_refl eq_refl
           eq_refl eq_refl eq_refl eq_refl).
Defined.


(** ** The further properties at work on the demo store *)

Lemma extract_token_sources_witness :
  has_char " " "s3cret.1.100" = false
  /\ extract_token (request (Some "Bearer s3cret.1.100") (Some "s3cret.2.100")
                      [] "" None)
     = Some "s3cret.1.100".
Proof.
  split; [reflexivity|].
  exact (proj1 (extract_token_sources "s3cret.1.100" (Some "s3cret.2.100")
                  (list_to_map []) "" "https" "wildway.io" None eq_refl)).
Defined.

Lemma protect_without_token_witness :
  truthy (extract_token (anonymous [])) = false
  /\ trace (handle (protect (ext := externals)) (anonymous []) users 1000 0)
     = [EvNext
          (Some (ThrownApp
                   (mkAppError
                      "You are not logged in! Please log in to your account."
                      401)))].
Proof.
  split; [reflexivity|].
  exact (f_equal trace
           (protect_without_token (ext := externals) (anonymous []) users 1000
              0%nat eq_refl)).
Defined.

Lemma protect_bearer_header_shadows_cookie_witness :
  let r := request (Some "Bearer") (Some "s3cret.2.100") [] "" None in
  startsWith "Bearer" "Bearer" = true
  /\ has_char " " "Bearer" = false
  /\ trace (handle (protect (ext := externals))
              (request None (Some "s3cret.2.100") [] "" None) users 1000 0)
     = [EvNext None]
  /\ next_calls (handle (protect (ext := externals)) r users 1000 0)
     = [Some (ThrownApp
                (mkAppError
                   "You are not logged in! Please log in to your account."
                   401))].
Proof.
  cbv zeta. do 3 (split; [reflexivity|]).
  exact (proj1 (protect_bearer_header_shadows_cookie
                  (ext := externals)
                  (request (Some "Bearer") (Some "s3cret.2.100") [] "" None)
                  users 1000 0%nat "Bearer" eq_refl eq_refl eq_refl)).
Defined.

Lemma protect_unknown_user_witness :
  jwt_verify (Externals := externals) "s3cret.9.100" "s3cret" 1000
  = inr (mkPayload 9 100)
  /\ find_by_id 9 users = None
  /\ trace (handle (protect (ext := externals)) (bearer "s3cret.9.100")
              users 1000 0)
     = [EvNext
          (Some (ThrownApp
                   (mkAppError
                      "The user belonging to this token no longer exists!"
                      401)))].
Proof.
  do 2 (split; [reflexivity|]).
  exact (f_equal trace
           (protect_unknown_user (ext := externals) (bearer "s3cret.9.100")
              users 1000 0%nat "s3cret.9.100" (mkPayload 9 100)
              eq_refl eq_refl eq_refl eq_refl)).
Defined.

Lemma login_missing_credentials_witness :
  let r := anonymous [("email", "ada@wildway.io")] in
  truthy (body r !! "password") = false
  /\ trace (handle (login (ext := externals)) r users 1000 0)
     = [EvNext
          (Some (ThrownApp
                   (mkAppError "Please provide email and password!" 400)))].
Proof.
  cbv zeta. split; [reflexivity|].
  exact (f_equal trace
           (login_missing_credentials (ext := externals)
              (anonymous [("email", "ada@wildway.io")]) users 1000 0%nat
              (or_intror eq_refl))).
Defined.

Lemma login_success_witness :
  let r := anonymous [("email", "ada@wildway.io"); ("password", "lovelace")] in
  bcrypt_compare (Externals := externals) "lovelace" "bcrypt$lovelace" = true
  /\ cookie_expiry_valid 90 1000 = true
  /\ next_calls (handle (login (ext := externals)) r users 1000 0) = []
  /\ client_jar (trace (handle (login (ext := externals)) r users 1000 0)) ∅
       !! "jwt"
     = Some ("s3cret.1.1000", 7776001000).
Proof.
  cbv zeta. split; [reflexivity|]. split; [reflexivity|].
  rewrite (proj1 (login_success (ext := externals)
                    (anonymous [("email", "ada@wildway.io");
                                ("password", "lovelace")])
                    users 1000 0%nat "ada@wildway.io" "lovelace" ada
                    "bcrypt$lovelace"
                    eq_refl eq_refl eq_refl eq_refl eq_refl eq_refl eq_refl
                    eq_refl)).
  split; reflexivity.
Defined.

Lemma restrictTo_always_proceeds_witness :
  includes ["admin"; "guide"] (role ada) = false
  /\ trace (handle (restrictTo ["admin"; "guide"])
              (request None None [] "" (Some ada)) users 1000 0)
     = [EvNext None].
Proof.
  split; [reflexivity|].
  exact (restrictTo_always_proceeds ["admin"; "guide"]
           (request None None [] "" (Some ada)) ada users 1000 0%nat eq_refl).
Defined.

Lemma getCurrentUser_does_not_strip_witness :
  password ada = Some "bcrypt$lovelace"
  /\ no_password_sent
       (handle getCurrentUser (request None None [] "" (Some ada)) users 1000 0)
     = false.
Proof.
  split; [reflexivity|].
  exact (proj2 (getCurrentUser_does_not_strip
                  (request None None [] "" (Some ada)) users 1000 0%nat ada
                  "bcrypt$lovelace" eq_refl eq_refl)).
Defined.

Lemma forgotPassword_unknown_email_witness :
  find_by_email "zed@wildway.io" users = None
  /\ trace (handle (forgotPassword (ext := externals))
              (anonymous [("email", "zed@wildway.io")]) users 1000 0)
     = [EvNext
          (Some (ThrownApp
                   (mkAppError "There is no user with this email address!"
                      404)))].
Proof.
  split; [reflexivity|].
  refine (f_equal trace
            (forgotPassword_unknown_email (ext := externals)
               (anonymous [("email", "zed@wildway.io")]) users 1000 0%nat _)).
  intros e He. vm_compute in He. injection He as <-. reflexivity.
Defined.

Lemma forgotPassword_success_witness :
  let r := anonymous [("email", "ada@wildway.io")] in
  sendEmail (Externals := externals) (reset_mail r "ada@wildway.io" "c0ffee")
  = true
  /\ trace (handle (forgotPassword (ext := externals)) r users 1000 0)
     = [EvMail (reset_mail r "ada@wildway.io" "c0ffee") true;
        EvJson 200
          (JObj [("status", JStr "success");
                 ("message", JStr "Token sent to email!")]);
        EvNext None].
Proof.
  cbv zeta. split; [reflexivity|].
  exact (forgotPassword_success (ext := externals)
           (anonymous [("email", "ada@wildway.io")]) users 1000 0%nat
           "ada@wildway.io" ada eq_refl eq_refl eq_refl).
Defined.

Lemma resetPassword_expired_token_witness :
  reset_filter "sha256$r3s3t" 1000 ada = true
  /\ holders_expired "sha256$r3s3t" 5000 users = true
  /\ trace (handle (resetPassword (ext := externals)) (reset_request "n3w")
              users 5000 0)
     = [EvNext (Some invalid_token_error)].
Proof.
  do 2 (split; [reflexivity|]).
  exact (f_equal trace
           (resetPassword_expired_token (ext := externals) (reset_request "n3w")
              users 5000 0%nat eq_refl)).
Defined.

Lemma updatePassword_wrong_current_witness :
  let r := request None None
             [("passwordCurrent", "nope"); ("password", "n3w");
              ("passwordConfirm", "n3w")] "" (Some ada) in
  bcrypt_compare (Externals := externals) "nope" "bcrypt$lovelace" = false
  /\ handle (updatePassword (ext := externals)) r users 1000 0
     = mkCtx r users 1000 0
         [EvNext
            (Some (ThrownApp
                     (mkAppError "Your current password is wrong!" 401)))].
Proof.
  cbv zeta. split; [reflexivity|].
  exact (updatePassword_wrong_current (ext := externals)
           (request None None
              [("passwordCurrent", "nope"); ("password", "n3w");
               ("passwordConfirm", "n3w")] "" (Some ada))
           users 1000 0%nat ada ada "bcrypt$lovelace" "nope"
           eq_refl eq_refl eq_refl eq_refl eq_refl).
Defined.

Lemma updatePassword_missing_record_witness :
  let gone := mkUser 9 "Zed" "zed@wildway.io" None None "user" None None None in
  let r := request None None [("passwordCurrent", "x")] "" (Some gone) in
  find_by_id 9 users = None
  /\ exists msg,
       handle (updatePassword (ext := externals)) r users 1000 0
       = mkCtx r users 1000 0 [EvNext (Some (ThrownType msg))].
Proof.
  cbv zeta. split; [reflexivity|].
  apply (updatePassword_missing_record (ext := externals)).
  intros me Hme. injection Hme as <-. reflexivity.
Defined.

Lemma updatePassword_invalidates_old_tokens_witness :
  let r := request None None
             [("passwordCurrent", "builder"); ("password", "n3w");
              ("passwordConfirm", "n3w")] "" (Some bob) in
  trace (handle (protect (ext := externals)) (bearer "s3cret.2.600")
           users 900 0)
  = [EvNext None]
  /\ next_calls (handle (updatePassword (ext := externals)) r users 800 0)
     = [None]
  /\ trace (handle (protect (ext := externals)) (bearer "s3cret.2.600")
              (db (handle (updatePassword (ext := externals)) r users 800 0))
              900 0)
     = [EvNext
          (Some (ThrownApp
                   (mkAppError
                      "User recently changed his password! Please log in again."
                      401)))].
Proof.
  cbv zeta. do 2 (split; [reflexivity|]).
  exact (updatePassword_invalidates_old_tokens (ext := externals)
           (request None None
              [("passwordCurrent", "builder"); ("password", "n3w");
               ("passwordConfirm", "n3w")] "" (Some bob))
           users 800 0%nat bob bob (bearer "s3cret.2.600") 900 0%nat
           "s3cret.2.600" (mkPayload 2 600)
           eq_refl eq_refl eq_refl eq_refl eq_refl eq_refl eq_refl eq_refl).
Defined.

Lemma login_then_protect_witness :
  let r := anonymous [("email", "bounce@wildway.io"); ("password", "builder")] in
  let r2 := request None (Some "s3cret.2.1700000000") [] "" None in
  jwt_sign (Externals := externals_seconds) 2 "s3cret" "90d" 1700000000600
  = "s3cret.2.1700000000"
  /\ jwt_verify (Externals := externals_seconds) "s3cret.2.1700000000" "s3cret"
       1700000050000
     = inr (mkPayload 2 1700000000)
  /\ cookie_expiry_valid 90 1700000000600 = true
  /\ trace (handle (protect (ext := externals_seconds)) r2
              (db (handle (login (ext := externals_seconds)) r users
                     1700000000600 0))
              1700000050000 0)
     = [EvNext None].
Proof.
  cbv zeta. do 3 (split; [reflexivity|]).
  exact (proj1 (proj2 (login_then_protect (ext := externals_seconds)
                         (anonymous [("email", "bounce@wildway.io");
                                     ("password", "builder")])
                         users 1700000000600 0%nat "bounce@wildway.io" "builder"
                         bob "bcrypt$builder"
                         (request None (Some "s3cret.2.1700000000") [] "" None)
                         1700000050000 0%nat (mkPayload 2 1700000000)
                         eq_refl eq_refl eq_refl eq_refl eq_refl eq_refl eq_refl
                         eq_refl eq_refl eq_refl eq_refl eq_refl eq_refl eq_refl
                         eq_refl))).
Defined.
